(** * The NWC Lightning backend of the mint (cashu/lightning/nwc.py)

    A shallow embedding of [NWCWallet], the adapter that drives a remote
    wallet over Nostr Wallet Connect (NIP-47), and the properties of its
    operations.

    Python integers are unbounded, so they are [Z]; [//] is floor division,
    which is [Z.div] for the positive divisor 1000.  [Optional[T]] is
    [option T].  A coroutine is a computation in the monad [M] below: it
    threads the log of the calls made to the two network collaborators (the
    protocol client and the exchange-rate provider) and ends either with a
    value or with a raised exception.  Logging through [logger] has no
    effect on the results and is left out. *)

From Stdlib Require Import ZArith List String Bool Lia.
Import ListNotations.

Local Open Scope string_scope.
Local Open Scope list_scope.
Local Open Scope Z_scope.

(** ** Exceptions and outcomes *)

(** The classes of exception the adapter tells apart, or raises itself.
    Every one of them derives from Python's [Exception]; [OtherException]
    stands for any further subclass (network, parsing, type errors). *)
Inductive exn_class : Type :=
| Nip47Error
| AssertionError
| KeyError
| Unsupported
| NotImplementedError
| OtherException.

(** An exception value: its class and the text [str(exc)] gives. *)
Record exn : Type := mk_exn { exn_cls : exn_class; exn_str : string }.

Inductive outcome (A : Type) : Type :=
| Ok (a : A)
| Raise (e : exn).
Arguments Ok {A} a.
Arguments Raise {A} e.

Definition obind {A B : Type} (o : outcome A) (k : A -> outcome B) : outcome B :=
  match o with
  | Ok a => k a
  | Raise e => Raise e
  end.

(** ** Units and amounts (core.base) *)

(** The declaration of the enumeration [Unit] is not among the sources.
    The adapter names three members; any other member is kept by name. *)
Inductive Unit : Type :=
| sat
| msat
| usd
| other_unit (name : string).

Definition Unit_eqb (a b : Unit) : bool :=
  match a, b with
  | sat, sat => true
  | msat, msat => true
  | usd, usd => true
  | other_unit n, other_unit m => String.eqb n m
  | _, _ => false
  end.

Module Amount.
Record t : Type := mk { unit : Unit; amount : Z }.
End Amount.

(** ** Messages of the protocol client (nostr.nwc) *)

Module Nip47GetInfoResponse.
Record t : Type := mk { methods : list string }.
End Nip47GetInfoResponse.

Module Nip47GetBalanceResponse.
Record t : Type := mk { balance : Z }.
End Nip47GetBalanceResponse.

Module Nip47MakeInvoiceRequest.
Record t : Type := mk { amount : Z }.
End Nip47MakeInvoiceRequest.

Module Nip47MakeInvoiceResponse.
Record t : Type := mk { payment_hash : string; invoice : string }.
End Nip47MakeInvoiceResponse.

Module Nip47PayInvoiceRequest.
Record t : Type := mk { invoice : string }.
End Nip47PayInvoiceRequest.

Module Nip47PayInvoiceResponse.
Record t : Type := mk { preimage : string }.
End Nip47PayInvoiceResponse.

Module Nip47LookupInvoiceRequest.
Record t : Type := mk { payment_hash : string }.
End Nip47LookupInvoiceRequest.

Module Nip47LookupInvoiceResponse.
Record t : Type := mk { preimage : option string; fees_paid : Z }.
End Nip47LookupInvoiceResponse.

(** ** The log of network calls *)

(** One entry per awaited call on the protocol client or on the rate
    provider, with the arguments the adapter passed. *)
Inductive Call : Type :=
| CallGetInfo
| CallGetBalance
| CallCreateInvoice (request : Nip47MakeInvoiceRequest.t)
| CallPayInvoice (request : Nip47PayInvoiceRequest.t)
| CallLookupInvoice (request : Nip47LookupInvoiceRequest.t)
| CallToSats (amt : Z) (unit : Unit)
| CallFromSats (amt : Z) (unit : Unit).

(** Calls in the order they were made. *)
Definition Trace : Type := list Call.

(** ** The collaborators *)

(** The protocol client.  What a call answers may depend on its argument
    and on everything that was called before it, which is the most a
    caller can observe of a remote wallet. *)
Module NWCClient.
Record t : Type := mk {
    get_info : Trace -> outcome Nip47GetInfoResponse.t;
    get_balance : Trace -> outcome Nip47GetBalanceResponse.t;
    create_invoice :
      Nip47MakeInvoiceRequest.t -> Trace -> outcome Nip47MakeInvoiceResponse.t;
    pay_invoice :
      Nip47PayInvoiceRequest.t -> Trace -> outcome Nip47PayInvoiceResponse.t;
    lookup_invoice :
      Nip47LookupInvoiceRequest.t -> Trace -> outcome Nip47LookupInvoiceResponse.t
  }.
End NWCClient.

(** The exchange-rate provider (lightning.fx.mempool). *)
Module MempoolExchangeRateProvider.
Record t : Type := mk {
    to_sats : Z -> Unit -> Trace -> outcome Z;
    from_sats : Z -> Unit -> Trace -> outcome Z
  }.
End MempoolExchangeRateProvider.

(** What [bolt11.decode] returns, as far as the adapter reads it. *)
Module Bolt11.
Record t : Type := mk { amount_msat : option Z; payment_hash : string }.
End Bolt11.

(** The melt quote request (core.models) with the two properties the
    adapter reads, [is_mpp] and [mpp_amount]. *)
Module PostMeltQuoteRequest.
Record t : Type := mk {
    unit : string;
    request : string;
    is_mpp : bool;
    mpp_amount : Z
  }.
End PostMeltQuoteRequest.

(** The stored quote (core.base), as far as [pay_invoice] reads it. *)
Module MeltQuote.
Record t : Type := mk { request : string; checking_id : string }.
End MeltQuote.

(** Everything the module imports and does not define: the pure helpers,
    the process settings and the two constructors of the collaborators. *)
Module Imports.
Record t : Type := mk {
    (** [bolt11.decode] *)
    decode : string -> outcome Bolt11.t;
    (** [core.helpers.fee_reserve], millisatoshi to millisatoshi *)
    fee_reserve : Z -> outcome Z;
    (** [Amount.to(to_unit, round)] *)
    Amount_to : Amount.t -> Unit -> option string -> outcome Amount.t;
    (** [Unit[name]], the lookup of a member by its name *)
    Unit_getitem : string -> outcome Unit;
    (** the text an f-string gives for [info.methods] *)
    format_methods : list string -> string;
    (** [settings.mint_nwc_url] *)
    mint_nwc_url : option string;
    (** [NWCClient(nostrWalletConnectUrl=...)] *)
    NWCClient_new : option string -> outcome NWCClient.t;
    (** the class attribute [fx = MempoolExchangeRateProvider()] *)
    fx : MempoolExchangeRateProvider.t
  }.
End Imports.

(** ** Result types (lightning.base) *)

Module StatusResponse.
Record t : Type := mk { error_message : option string; balance : Z }.
End StatusResponse.

Module InvoiceResponse.
Record t : Type := mk {
    ok : bool;
    checking_id : option string;
    payment_request : option string;
    error_message : option string
  }.
End InvoiceResponse.

Module PaymentResponse.
Record t : Type := mk {
    ok : bool;
    checking_id : option string;
    fee : option Amount.t;
    preimage : option string;
    error_message : option string
  }.
End PaymentResponse.

Module PaymentStatus.
Record t : Type := mk { paid : bool }.
End PaymentStatus.

Module PaymentQuoteResponse.
Record t : Type := mk {
    checking_id : string;
    fee : Amount.t;
    amount : Amount.t
  }.
End PaymentQuoteResponse.

(** ** Coroutines *)

(** A coroutine of the adapter: from the log so far to an outcome and the
    log extended by the calls it made.  The log survives an exception: a
    call that was made stays made. *)
Definition M (A : Type) : Type := Trace -> outcome A * Trace.

Definition ret {A : Type} (a : A) : M A := fun t => (Ok a, t).

Definition raise {A : Type} (e : exn) : M A := fun t => (Raise e, t).

Definition bind {A B : Type} (m : M A) (k : A -> M B) : M B :=
  fun t =>
    match m t with
    | (Ok a, t') => k a t'
    | (Raise e, t') => (Raise e, t')
    end.

(** A pure helper called from a coroutine. *)
Definition lift {A : Type} (o : outcome A) : M A := fun t => (o, t).

(** [await] of a collaborator's call: the collaborator answers from the
    log before the call, and the call is appended to the log whether it
    returns or raises. *)
Definition await {A : Type} (c : Call) (behaviour : Trace -> outcome A) : M A :=
  fun t => (behaviour t, t ++ [c]).

(** [try: body except Exception as exc: handler exc]. *)
Definition try_except {A : Type} (body : M A) (handler : exn -> M A) : M A :=
  fun t =>
    match body t with
    | (Ok a, t') => (Ok a, t')
    | (Raise e, t') => handler e t'
    end.

Declare Scope coroutine_scope.
Delimit Scope coroutine_scope with coroutine.
Notation "x <- c1 ;; c2" := (bind c1 (fun x => c2))
  (at level 61, c1 at next level, right associativity) : coroutine_scope.
Notation "c1 ;; c2" := (bind c1 (fun _ => c2))
  (at level 61, right associativity) : coroutine_scope.
Local Open Scope coroutine_scope.

(** ** The adapter *)

Definition required_nip47_methods : list string :=
  [ "get_info"; "get_balance"; "make_invoice"; "pay_invoice"; "lookup_invoice" ].

(** [res.preimage is not None] and [res.preimage] is not the empty
    string. *)
Definition preimage_present (preimage : option string) : bool :=
  match preimage with
  | Some p => negb (String.eqb p EmptyString)
  | None => false
  end.

(** The truth value Python gives an [Optional[int]]: [None] and [0] are
    false. *)
Definition truthy (x : option Z) : bool :=
  match x with
  | Some v => negb (v =? 0)
  | None => false
  end.

Module NWCWallet.

(** The instance attributes set by [__init__]. *)
Record t : Type := mk { unit : Unit; client : NWCClient.t }.

Definition supported_units : list Unit := [ sat; usd ].

(** Modelled from the spec: [assert_unit_supported] is inherited from
    [LightningBackend] (lightning/base.py), which is not among the
    sources.  The construction "fails immediately (construction-time
    error) if the unit is not in the adapter's supported set"; the text
    of the error is not specified. *)
Definition assert_unit_supported (unit : Unit) : outcome Datatypes.unit :=
  if existsb (Unit_eqb unit) supported_units
  then Ok tt
  else Raise (mk_exn Unsupported "unit is not supported").

Section Operations.

Variable env : Imports.t.

Let fx : MempoolExchangeRateProvider.t := Imports.fx env.

Definition __init__ (unit : Unit) : outcome t :=
    obind (assert_unit_supported unit) (fun _ =>
    obind (Imports.NWCClient_new env (Imports.mint_nwc_url env)) (fun client =>
    Ok (mk unit client))).

Definition _amt_to_sat (self : t) (amt : Z) : M Z :=
    await (CallToSats amt (unit self))
          (MempoolExchangeRateProvider.to_sats fx amt (unit self)).

Definition status_body (self : t) : M StatusResponse.t :=
    info <- await CallGetInfo (NWCClient.get_info (client self)) ;;
    if negb (forallb
               (fun method =>
                  existsb (String.eqb method) (Nip47GetInfoResponse.methods info))
               required_nip47_methods)
    then
      ret (StatusResponse.mk
             (Some ("NWC does not support all required methods. Supports: "
                    ++ Imports.format_methods env
                         (Nip47GetInfoResponse.methods info))%string)
             0)
    else
      res <- await CallGetBalance (NWCClient.get_balance (client self)) ;;
      let balance_msat := Nip47GetBalanceResponse.balance res in
      balance <- await (CallFromSats (balance_msat / 1000) (unit self))
                       (MempoolExchangeRateProvider.from_sats
                          fx (balance_msat / 1000) (unit self)) ;;
      ret (StatusResponse.mk None balance).

Definition status_handler (exc : exn) : M StatusResponse.t :=
    match exn_cls exc with
    | Nip47Error => ret (StatusResponse.mk (Some (exn_str exc)) 0)
    | _ =>
        ret (StatusResponse.mk
               (Some ("Failed to connect to lightning wallet via NWC due to: "
                      ++ exn_str exc)%string)
               0)
    end.

Definition status (self : t) : M StatusResponse.t :=
    try_except (status_body self) status_handler.

(** [memo], [description_hash] and [unhashed_description] are accepted
    and not used. *)
Definition create_invoice_body (self : t) (amount : Amount.t)
    : M InvoiceResponse.t :=
    amount_sat <- _amt_to_sat self (Amount.amount amount) ;;
    let request := Nip47MakeInvoiceRequest.mk (amount_sat * 1000) in
    res <- await (CallCreateInvoice request)
                 (NWCClient.create_invoice (client self) request) ;;
    ret (InvoiceResponse.mk
           true
           (Some (Nip47MakeInvoiceResponse.payment_hash res))
           (Some (Nip47MakeInvoiceResponse.invoice res))
           None).

Definition create_invoice_handler (exc : exn) : M InvoiceResponse.t :=
    match exn_cls exc with
    | Nip47Error => ret (InvoiceResponse.mk false None None (Some (exn_str exc)))
    | _ =>
        ret (InvoiceResponse.mk false None None
               (Some ("Failed to create invoice due to: " ++ exn_str exc)%string))
    end.

Definition create_invoice (self : t) (amount : Amount.t)
    (memo : option string) (description_hash : option string)
    (unhashed_description : option string) : M InvoiceResponse.t :=
    try_except (create_invoice_body self amount) create_invoice_handler.

(** The inner [try] of [pay_invoice]: the fee in satoshis, or 0 when
    the lookup or the division raises. *)
Definition lookup_fees (self : t) (quote : MeltQuote.t) : M Z :=
    try_except
      (let request := Nip47LookupInvoiceRequest.mk (MeltQuote.checking_id quote) in
       invoice <- await (CallLookupInvoice request)
                        (NWCClient.lookup_invoice (client self) request) ;;
       ret (Nip47LookupInvoiceResponse.fees_paid invoice / 1000))
      (fun exc => ret 0).

Definition pay_invoice_body (self : t) (quote : MeltQuote.t)
    (fee_limit_msat : Z) : M PaymentResponse.t :=
    let request := Nip47PayInvoiceRequest.mk (MeltQuote.request quote) in
    pay_invoice_res <- await (CallPayInvoice request)
                             (NWCClient.pay_invoice (client self) request) ;;
    fees <- lookup_fees self quote ;;
    fees <- (if 0 <? fees
             then await (CallFromSats fees (unit self))
                        (MempoolExchangeRateProvider.from_sats fx fees (unit self))
             else ret fees) ;;
    ret (PaymentResponse.mk
           true
           None
           (Some (Amount.mk (unit self) fees))
           (Some (Nip47PayInvoiceResponse.preimage pay_invoice_res))
           None).

Definition pay_invoice_handler (exc : exn) : M PaymentResponse.t :=
    match exn_cls exc with
    | Nip47Error =>
        ret (PaymentResponse.mk false None None None (Some (exn_str exc)))
    | _ =>
        ret (PaymentResponse.mk false None None None
               (Some ("Failed to pay invoice due to: " ++ exn_str exc)%string))
    end.

Definition pay_invoice (self : t) (quote : MeltQuote.t) (fee_limit_msat : Z)
    : M PaymentResponse.t :=
    try_except (pay_invoice_body self quote fee_limit_msat) pay_invoice_handler.

Definition get_invoice_status (self : t) (checking_id : string)
    : M PaymentStatus.t :=
    try_except
      (let request := Nip47LookupInvoiceRequest.mk checking_id in
       res <- await (CallLookupInvoice request)
                    (NWCClient.lookup_invoice (client self) request) ;;
       let paid := preimage_present (Nip47LookupInvoiceResponse.preimage res) in
       ret (PaymentStatus.mk paid))
      (fun exc => ret (PaymentStatus.mk false)).

Definition get_payment_status (self : t) (checking_id : string)
    : M PaymentStatus.t :=
    try_except
      (let request := Nip47LookupInvoiceRequest.mk checking_id in
       res <- await (CallLookupInvoice request)
                    (NWCClient.lookup_invoice (client self) request) ;;
       let paid := preimage_present (Nip47LookupInvoiceResponse.preimage res) in
       ret (PaymentStatus.mk paid))
      (fun exc => ret (PaymentStatus.mk false)).

(** An [Amount] is a dataclass without [__bool__], so [if amount:]
    tests it against [None].  The [Amount] in millisatoshis built from
    the reserve is overwritten before it is read.  The keyword arguments
    of the result are evaluated in the order written: [fee] before
    [amount]. *)
Definition get_payment_quote (self : t) (melt_quote : PostMeltQuoteRequest.t)
    : M PaymentQuoteResponse.t :=
    amount <- (if PostMeltQuoteRequest.is_mpp melt_quote
               then
                 u <- lift (Imports.Unit_getitem env
                              (PostMeltQuoteRequest.unit melt_quote)) ;;
                 ret (Some (Amount.mk u (PostMeltQuoteRequest.mpp_amount melt_quote)))
               else ret None) ;;
    invoice_obj <- lift (Imports.decode env (PostMeltQuoteRequest.request melt_quote)) ;;
    (if truthy (Bolt11.amount_msat invoice_obj)
     then ret tt
     else raise (mk_exn AssertionError "invoice has no amount.")) ;;
    amount_msat <- match amount with
                   | Some a =>
                       a' <- lift (Imports.Amount_to env a msat None) ;;
                       ret (Amount.amount a')
                   | None =>
                       ret (match Bolt11.amount_msat invoice_obj with
                            | Some v => v
                            | None => 0
                            end)
                   end ;;
    fees_msat <- lift (Imports.fee_reserve env amount_msat) ;;
    amount_unit <- await (CallFromSats (amount_msat / 1000) (unit self))
                         (MempoolExchangeRateProvider.from_sats
                            fx (amount_msat / 1000) (unit self)) ;;
    fees_unit <- await (CallFromSats (fees_msat / 1000) (unit self))
                       (MempoolExchangeRateProvider.from_sats
                          fx (fees_msat / 1000) (unit self)) ;;
    let amount := Amount.mk (unit self) amount_unit in
    let fees := Amount.mk (unit self) fees_unit in
    fee' <- lift (Imports.Amount_to env fees (unit self) (Some "up")) ;;
    amount' <- lift (Imports.Amount_to env amount (unit self) (Some "up")) ;;
    ret (PaymentQuoteResponse.mk (Bolt11.payment_hash invoice_obj) fee' amount').

Definition paid_invoices_stream (self : t) : outcome Datatypes.unit :=
    Raise (mk_exn NotImplementedError "paid_invoices_stream not implemented").

End Operations.

End NWCWallet.

(** ** Test doubles

    Small collaborators to run the adapter on: they stand where the unit
    tests of the backend put their fakes. *)

(** A wallet that answers every request.  The invoice it looks up is
    settled and cost [fees_paid] millisatoshis in fees. *)
Definition cooperating_client (fees_paid : Z) : NWCClient.t :=
  NWCClient.mk
    (fun _ => Ok (Nip47GetInfoResponse.mk
                    [ "pay_invoice"; "get_balance"; "get_info"; "make_invoice";
                      "lookup_invoice"; "list_transactions" ]))
    (fun _ => Ok (Nip47GetBalanceResponse.mk 5500))
    (fun _ _ => Ok (Nip47MakeInvoiceResponse.mk "hash" "lnbc1"))
    (fun _ _ => Ok (Nip47PayInvoiceResponse.mk "preimage"))
    (fun _ _ => Ok (Nip47LookupInvoiceResponse.mk (Some "preimage") fees_paid)).

(** A wallet whose connection does not grant [pay_invoice]. *)
Definition receive_only_client : NWCClient.t :=
  NWCClient.mk
    (fun _ => Ok (Nip47GetInfoResponse.mk
                    [ "get_info"; "get_balance"; "make_invoice"; "lookup_invoice" ]))
    (fun _ => Ok (Nip47GetBalanceResponse.mk 5500))
    (fun _ _ => Ok (Nip47MakeInvoiceResponse.mk "hash" "lnbc1"))
    (fun _ _ => Raise (mk_exn Nip47Error "RESTRICTED"))
    (fun _ _ => Raise (mk_exn Nip47Error "NOT_FOUND")).

(** A wallet that pays, and then cannot find the payment. *)
Definition forgetful_client : NWCClient.t :=
  NWCClient.mk
    (fun _ => Ok (Nip47GetInfoResponse.mk required_nip47_methods))
    (fun _ => Ok (Nip47GetBalanceResponse.mk 5500))
    (fun _ _ => Ok (Nip47MakeInvoiceResponse.mk "hash" "lnbc1"))
    (fun _ _ => Ok (Nip47PayInvoiceResponse.mk "preimage"))
    (fun _ _ => Raise (mk_exn Nip47Error "NOT_FOUND")).

(** A wallet that cannot be reached. *)
Definition unreachable_client : NWCClient.t :=
  NWCClient.mk
    (fun _ => Raise (mk_exn OtherException "timeout"))
    (fun _ => Raise (mk_exn OtherException "timeout"))
    (fun _ _ => Raise (mk_exn OtherException "timeout"))
    (fun _ _ => Raise (mk_exn OtherException "timeout"))
    (fun _ _ => Raise (mk_exn OtherException "timeout")).

(** The rate provider for a wallet kept in satoshis: nothing to convert. *)
Definition fx_sat : MempoolExchangeRateProvider.t :=
  MempoolExchangeRateProvider.mk (fun amt _ _ => Ok amt) (fun amt _ _ => Ok amt).

(** A rate provider whose price source is down. *)
Definition fx_down : MempoolExchangeRateProvider.t :=
  MempoolExchangeRateProvider.mk
    (fun _ _ _ => Raise (mk_exn OtherException "no price"))
    (fun _ _ _ => Raise (mk_exn OtherException "no price")).

(** Modelled from the spec: [Amount.to] is defined in core/base.py, which
    is not among the sources.  An amount is a magnitude "in the smallest
    denomination of its unit", "1000 millisatoshi = 1 satoshi", and a
    conversion that is inexact takes a "rounding direction (up/down)".
    Converting to the unit an amount already has leaves it as it is. *)
Definition Amount_to_model (a : Amount.t) (to_unit : Unit) (round : option string)
  : outcome Amount.t :=
  if Unit_eqb (Amount.unit a) to_unit then Ok a
  else
    match Amount.unit a, to_unit with
    | sat, msat => Ok (Amount.mk msat (Amount.amount a * 1000))
    | msat, sat =>
        match round with
        | Some r =>
            if String.eqb r "up"
            then Ok (Amount.mk sat (- (- Amount.amount a / 1000)))
            else Ok (Amount.mk sat (Amount.amount a / 1000))
        | None => Ok (Amount.mk sat (Amount.amount a / 1000))
        end
    | _, _ => Raise (mk_exn OtherException "cannot convert")
    end.

(** The members of [Unit] by name: the three the adapter names, and the
    others of the enumeration, kept by name.  A name that is no member
    raises [KeyError], whose text is the name between quotes. *)
Definition Unit_getitem_model (name : string) : outcome Unit :=
  if String.eqb name "sat" then Ok sat
  else if String.eqb name "msat" then Ok msat
  else if String.eqb name "usd" then Ok usd
  else if String.eqb name "eur" then Ok (other_unit "eur")
  else if String.eqb name "btc" then Ok (other_unit "btc")
  else if String.eqb name "auth" then Ok (other_unit "auth")
  else Raise (mk_exn KeyError ("'" ++ name ++ "'")%string).

(** What an f-string prints for a list of strings, its [repr]: the items
    between quotes, separated by a comma and a space, within brackets.
    This is for method names, which hold no quote, backslash or control
    character to escape. *)
Definition repr_methods (methods : list string) : string :=
  ("[" ++ String.concat ", " (map (fun m => "'" ++ m ++ "'") methods) ++ "]")%string.

(** The imports of a test: every payment request decodes to an invoice of
    [invoice_msat] millisatoshis, the reserve policy answers
    [reserve_msat] for every amount, and every wallet built is [client]. *)
Definition test_imports (invoice_msat reserve_msat : Z) (client : NWCClient.t)
  (fx : MempoolExchangeRateProvider.t) : Imports.t :=
  Imports.mk
    (fun _ => Ok (Bolt11.mk (Some invoice_msat) "hash"))
    (fun _ => Ok reserve_msat)
    Amount_to_model
    Unit_getitem_model
    repr_methods
    (Some "nostr+walletconnect://wallet")
    (fun _ => Ok client)
    fx.

(** The adapter in satoshis over a wallet that cannot be reached. *)
Definition offline_imports : Imports.t :=
  test_imports 1000 1 unreachable_client fx_sat.

Definition offline_wallet : NWCWallet.t := NWCWallet.mk sat unreachable_client.

(** Imports whose invoice decoder rejects every payment request. *)
Definition undecodable_imports : Imports.t :=
  Imports.mk
    (fun _ => Raise (mk_exn OtherException "bad bech32"))
    (fun _ => Ok 1)
    Amount_to_model
    Unit_getitem_model
    repr_methods
    (Some "nostr+walletconnect://wallet")
    (fun _ => Ok (cooperating_client 0))
    fx_sat.

(** ** How coroutines run *)

Ltac run :=
  cbv beta zeta delta
    [ NWCWallet.status NWCWallet.status_body NWCWallet.status_handler
      NWCWallet.create_invoice NWCWallet.create_invoice_body
      NWCWallet.create_invoice_handler NWCWallet._amt_to_sat
      NWCWallet.pay_invoice NWCWallet.pay_invoice_body
      NWCWallet.pay_invoice_handler NWCWallet.lookup_fees
      NWCWallet.get_invoice_status NWCWallet.get_payment_status
      NWCWallet.get_payment_quote
      try_except bind await ret raise lift ].

(** The capability test of [status] is set inclusion. *)
Lemma supports_required_methods (methods : list string) :
  forallb (fun method => existsb (String.eqb method) methods)
          required_nip47_methods = true
  <-> incl required_nip47_methods methods.
Proof.
  rewrite forallb_forall. unfold incl.
  split; intros H method Hin; specialize (H method Hin).
  - apply existsb_exists in H. destruct H as [m [Hm Heq]].
    apply String.eqb_eq in Heq. now subst.
  - apply existsb_exists. exists method. split; [assumption|].
    apply String.eqb_refl.
Qed.

Lemma app_cons_app {A : Type} (l : list A) (a b : A) :
  (l ++ [a]) ++ [b] = l ++ [a; b].
Proof. now rewrite <- app_assoc. Qed.

(** Closes a goal on the calls a quote has made: none, one conversion
    or two. *)
Ltac calls_made :=
  cbn [snd]; rewrite ?app_cons_app;
  first
    [ exists []; split; [symmetry; apply app_nil_r | now left]
    | eexists; split;
      [ reflexivity
      | first [ right; left; eexists; reflexivity
              | right; right; eexists; eexists; reflexivity ] ] ].

(** ** status *)

(** C3. Once [get_info] has answered: if the methods it reports do not
    include all five required ones, [status] returns balance 0 with an
    error message and the only call made is [get_info], so [get_balance]
    is never called; otherwise [get_balance] is the next call, and when
    it answers [res] and the rate provider converts
    floor([res.balance] / 1000) satoshis to [b], [status] returns balance
    [b] with no error message. *)
Theorem status_capability_gate
  (env : Imports.t) (self : NWCWallet.t) (t : Trace)
  (info : Nip47GetInfoResponse.t) :
  NWCClient.get_info (NWCWallet.client self) t = Ok info ->
  (~ incl [ "get_info"; "get_balance"; "make_invoice"; "pay_invoice";
            "lookup_invoice" ] (Nip47GetInfoResponse.methods info) ->
   (exists msg,
       NWCWallet.status env self t
       = (Ok (StatusResponse.mk (Some msg) 0), t ++ [CallGetInfo]))
   /\ ~ In CallGetBalance [CallGetInfo])
  /\
  (incl [ "get_info"; "get_balance"; "make_invoice"; "pay_invoice";
          "lookup_invoice" ] (Nip47GetInfoResponse.methods info) ->
   (exists rest,
       snd (NWCWallet.status env self t)
       = t ++ CallGetInfo :: CallGetBalance :: rest)
   /\
   forall res b,
     NWCClient.get_balance (NWCWallet.client self) (t ++ [CallGetInfo]) = Ok res ->
     MempoolExchangeRateProvider.from_sats (Imports.fx env)
       (Nip47GetBalanceResponse.balance res / 1000) (NWCWallet.unit self)
       (t ++ [CallGetInfo; CallGetBalance]) = Ok b ->
     NWCWallet.status env self t
     = (Ok (StatusResponse.mk None b),
        t ++ [ CallGetInfo; CallGetBalance;
               CallFromSats (Nip47GetBalanceResponse.balance res / 1000)
                            (NWCWallet.unit self) ])).
Proof.
  intros Hinfo. split; intros Hreq.
  - split.
    + run. rewrite Hinfo.
      destruct (forallb _ required_nip47_methods) eqn:Hall.
      * apply supports_required_methods in Hall. contradiction.
      * cbn. eexists. reflexivity.
    + intros [H | []]. discriminate H.
  - apply supports_required_methods in Hreq.
    split.
    + run. rewrite Hinfo, Hreq. cbn.
      destruct (NWCClient.get_balance _ _) as [res | e].
      * destruct (MempoolExchangeRateProvider.from_sats _ _ _ _) as [b | e].
        -- eexists. cbn. rewrite !app_cons_app. rewrite <- app_assoc. reflexivity.
        -- eexists. destruct (exn_cls e); cbn;
             rewrite !app_cons_app; rewrite <- app_assoc; reflexivity.
      * exists []. destruct (exn_cls e); cbn;
          rewrite !app_cons_app; reflexivity.
    + intros res b Hbal Hfx. run. rewrite Hinfo, Hreq. cbn.
      rewrite Hbal. rewrite app_cons_app. rewrite Hfx.
      rewrite <- app_assoc. reflexivity.
Qed.

(** [status] with a wallet that lacks [pay_invoice], and with one that
    has every method and holds 5500 millisatoshis. *)
Lemma status_capability_gate_witness :
  (exists msg,
      NWCWallet.status (test_imports 1000 1 receive_only_client fx_sat)
        (NWCWallet.mk sat receive_only_client) []
      = (Ok (StatusResponse.mk (Some msg) 0), [CallGetInfo]))
  /\
  NWCWallet.status (test_imports 1000 1 (cooperating_client 0) fx_sat)
    (NWCWallet.mk sat (cooperating_client 0)) []
  = (Ok (StatusResponse.mk None 5),
     [CallGetInfo; CallGetBalance; CallFromSats 5 sat]).
Proof.
  split.
  - apply (status_capability_gate
             (test_imports 1000 1 receive_only_client fx_sat)
             (NWCWallet.mk sat receive_only_client) []
             (Nip47GetInfoResponse.mk
                [ "get_info"; "get_balance"; "make_invoice"; "lookup_invoice" ])).
    + reflexivity.
    + intros H.
      assert (Hin : In "pay_invoice"
                       [ "get_info"; "get_balance"; "make_invoice";
                         "lookup_invoice" ])
        by (apply H; simpl; tauto).
      simpl in Hin.
      repeat (destruct Hin as [Hin | Hin]; [discriminate Hin|]).
      exact Hin.
  - destruct (status_capability_gate
                (test_imports 1000 1 (cooperating_client 0) fx_sat)
                (NWCWallet.mk sat (cooperating_client 0)) []
                (Nip47GetInfoResponse.mk
                   [ "pay_invoice"; "get_balance"; "get_info"; "make_invoice";
                     "lookup_invoice"; "list_transactions" ])
                eq_refl) as [_ Hall].
    destruct Hall as [_ Hbalance].
    + intros m Hm. simpl in Hm.
      repeat (destruct Hm as [Hm | Hm]; [subst m; simpl; tauto|]).
      contradiction.
    + exact (Hbalance (Nip47GetBalanceResponse.mk 5500) 5 eq_refl eq_refl).
Defined.

(** ** No operation but the quote raises *)

Lemma status_returns (env : Imports.t) (self : NWCWallet.t) (t : Trace) :
  exists r t',
    NWCWallet.status env self t = (Ok r, t')
    /\ (forall e t'',
           NWCWallet.status_body env self t = (Raise e, t'') ->
           StatusResponse.balance r = 0
           /\ StatusResponse.error_message r <> None).
Proof.
  unfold NWCWallet.status, try_except.
  destruct (NWCWallet.status_body env self t) as [[r | e] t'].
  - exists r, t'. split; [reflexivity | discriminate].
  - unfold NWCWallet.status_handler, ret.
    destruct (exn_cls e);
      (eexists; eexists; split;
       [reflexivity | intros; cbn; split; [reflexivity | discriminate]]).
Qed.

Lemma create_invoice_returns (env : Imports.t) (self : NWCWallet.t)
  (amount : Amount.t) (memo description_hash unhashed_description : option string)
  (t : Trace) :
  exists r t',
    NWCWallet.create_invoice env self amount memo description_hash
      unhashed_description t = (Ok r, t')
    /\ (forall e t'',
           NWCWallet.create_invoice_body env self amount t = (Raise e, t'') ->
           InvoiceResponse.ok r = false
           /\ InvoiceResponse.error_message r <> None
           /\ InvoiceResponse.checking_id r = None
           /\ InvoiceResponse.payment_request r = None).
Proof.
  unfold NWCWallet.create_invoice, try_except.
  destruct (NWCWallet.create_invoice_body env self amount t) as [[r | e] t'].
  - exists r, t'. split; [reflexivity | discriminate].
  - unfold NWCWallet.create_invoice_handler, ret.
    destruct (exn_cls e);
      (eexists; eexists; split;
       [reflexivity | intros; cbn; repeat split; discriminate]).
Qed.

Lemma pay_invoice_returns (env : Imports.t) (self : NWCWallet.t)
  (quote : MeltQuote.t) (fee_limit_msat : Z) (t : Trace) :
  exists r t',
    NWCWallet.pay_invoice env self quote fee_limit_msat t = (Ok r, t')
    /\ (forall e t'',
           NWCWallet.pay_invoice_body env self quote fee_limit_msat t
           = (Raise e, t'') ->
           PaymentResponse.ok r = false
           /\ PaymentResponse.error_message r <> None
           /\ PaymentResponse.fee r = None
           /\ PaymentResponse.preimage r = None).
Proof.
  unfold NWCWallet.pay_invoice, try_except.
  destruct (NWCWallet.pay_invoice_body env self quote fee_limit_msat t)
    as [[r | e] t'].
  - exists r, t'. split; [reflexivity | discriminate].
  - unfold NWCWallet.pay_invoice_handler, ret.
    destruct (exn_cls e);
      (eexists; eexists; split;
       [reflexivity | intros; cbn; repeat split; discriminate]).
Qed.

(** What both status lookups compute. *)
Lemma get_invoice_status_eq (self : NWCWallet.t)
  (checking_id : string) (t : Trace) :
  NWCWallet.get_invoice_status self checking_id t
  = (Ok (PaymentStatus.mk
           match NWCClient.lookup_invoice (NWCWallet.client self)
                   (Nip47LookupInvoiceRequest.mk checking_id) t with
           | Ok res => preimage_present (Nip47LookupInvoiceResponse.preimage res)
           | Raise _ => false
           end),
     t ++ [CallLookupInvoice (Nip47LookupInvoiceRequest.mk checking_id)]).
Proof.
  run. now destruct (NWCClient.lookup_invoice _ _ _).
Qed.

Lemma get_payment_status_eq (self : NWCWallet.t)
  (checking_id : string) (t : Trace) :
  NWCWallet.get_payment_status self checking_id t
  = (Ok (PaymentStatus.mk
           match NWCClient.lookup_invoice (NWCWallet.client self)
                   (Nip47LookupInvoiceRequest.mk checking_id) t with
           | Ok res => preimage_present (Nip47LookupInvoiceResponse.preimage res)
           | Raise _ => false
           end),
     t ++ [CallLookupInvoice (Nip47LookupInvoiceRequest.mk checking_id)]).
Proof.
  run. now destruct (NWCClient.lookup_invoice _ _ _).
Qed.

Lemma preimage_present_iff (preimage : option string) :
  preimage_present preimage = true
  <-> exists p, preimage = Some p /\ p <> EmptyString.
Proof.
  destruct preimage as [p |]; simpl.
  - rewrite negb_true_iff. split.
    + intros H. exists p. split; [reflexivity|].
      now apply String.eqb_neq.
    + intros [q [Hq Hne]]. injection Hq as ->. now apply String.eqb_neq.
  - split; [discriminate | intros [p [H _]]; discriminate].
Qed.



(** ** get_invoice_status and get_payment_status *)

(** C6. For every checking identifier and every behaviour of the protocol
    client, [get_invoice_status] and [get_payment_status] return the same
    result after the same single lookup by that identifier; the result is
    never an exception, and it is [paid=true] exactly when the lookup
    returns and its preimage is present and not empty. *)
Theorem status_lookups_agree (self : NWCWallet.t) (checking_id : string) (t : Trace) :
  NWCWallet.get_invoice_status self checking_id t
  = NWCWallet.get_payment_status self checking_id t
  /\
  exists paid,
    NWCWallet.get_invoice_status self checking_id t
    = (Ok (PaymentStatus.mk paid),
       t ++ [CallLookupInvoice (Nip47LookupInvoiceRequest.mk checking_id)])
    /\
    (paid = true
     <-> exists res p,
           NWCClient.lookup_invoice (NWCWallet.client self)
             (Nip47LookupInvoiceRequest.mk checking_id) t = Ok res
           /\ Nip47LookupInvoiceResponse.preimage res = Some p
           /\ p <> EmptyString).
Proof.
  split.
  - now rewrite get_invoice_status_eq, get_payment_status_eq.
  - rewrite get_invoice_status_eq. eexists. split; [reflexivity|].
    destruct (NWCClient.lookup_invoice _ _ _) as [res | e].
    + rewrite preimage_present_iff. split.
      * intros [p [Hp Hne]]. now exists res, p.
      * intros (res' & p & Hres & Hp & Hne). injection Hres as <-. now exists p.
    + split; [discriminate|]. intros (res & p & Hres & _). discriminate.
Qed.

(** ** create_invoice *)

(** C7. When the rate provider converts the amount to [amount_sat]
    satoshis and the protocol client creates the invoice, [create_invoice]
    has asked for exactly [amount_sat * 1000] millisatoshis and returns
    [ok=true], the payment hash the client returned as [checking_id] and
    the invoice string it returned as [payment_request]. *)
Theorem create_invoice_success
  (env : Imports.t) (self : NWCWallet.t) (amount : Amount.t)
  (memo description_hash unhashed_description : option string) (t : Trace)
  (amount_sat : Z) (res : Nip47MakeInvoiceResponse.t) :
  MempoolExchangeRateProvider.to_sats (Imports.fx env)
    (Amount.amount amount) (NWCWallet.unit self) t = Ok amount_sat ->
  NWCClient.create_invoice (NWCWallet.client self)
    (Nip47MakeInvoiceRequest.mk (amount_sat * 1000))
    (t ++ [CallToSats (Amount.amount amount) (NWCWallet.unit self)]) = Ok res ->
  NWCWallet.create_invoice env self amount memo description_hash
    unhashed_description t
  = (Ok (InvoiceResponse.mk
           true
           (Some (Nip47MakeInvoiceResponse.payment_hash res))
           (Some (Nip47MakeInvoiceResponse.invoice res))
           None),
     t ++ [ CallToSats (Amount.amount amount) (NWCWallet.unit self);
            CallCreateInvoice (Nip47MakeInvoiceRequest.mk (amount_sat * 1000)) ]).
Proof.
  intros Hsats Hinvoice. run.
  rewrite Hsats, Hinvoice. now rewrite app_cons_app.
Qed.

(** An invoice for 1000 satoshis from a cooperating wallet. *)
Lemma create_invoice_success_witness :
  NWCWallet.create_invoice (test_imports 1000 1 (cooperating_client 0) fx_sat)
    (NWCWallet.mk sat (cooperating_client 0)) (Amount.mk sat 1000)
    None None None []
  = (Ok (InvoiceResponse.mk true (Some "hash") (Some "lnbc1") None),
     [ CallToSats 1000 sat;
       CallCreateInvoice (Nip47MakeInvoiceRequest.mk 1000000) ]).
Proof.
  apply (create_invoice_success
           (test_imports 1000 1 (cooperating_client 0) fx_sat)
           (NWCWallet.mk sat (cooperating_client 0)) (Amount.mk sat 1000)
           None None None [] 1000 (Nip47MakeInvoiceResponse.mk "hash" "lnbc1"));
    reflexivity.
Defined.

(** ** pay_invoice *)

(** The inner [try] always returns: the floored fee of the lookup, or 0. *)
Lemma lookup_fees_eq (self : NWCWallet.t) (quote : MeltQuote.t) (t : Trace) :
  NWCWallet.lookup_fees self quote t
  = (Ok match NWCClient.lookup_invoice (NWCWallet.client self)
                (Nip47LookupInvoiceRequest.mk (MeltQuote.checking_id quote)) t with
        | Ok invoice => Nip47LookupInvoiceResponse.fees_paid invoice / 1000
        | Raise _ => 0
        end,
     t ++ [CallLookupInvoice
             (Nip47LookupInvoiceRequest.mk (MeltQuote.checking_id quote))]).
Proof.
  run. now destruct (NWCClient.lookup_invoice _ _ _).
Qed.

(** The first call of [pay_invoice] is the payment, whatever follows. *)
Lemma pay_invoice_first_call (env : Imports.t) (self : NWCWallet.t)
  (quote : MeltQuote.t) (fee_limit_msat : Z) (t : Trace) :
  exists rest,
    snd (NWCWallet.pay_invoice env self quote fee_limit_msat t)
    = t ++ CallPayInvoice (Nip47PayInvoiceRequest.mk (MeltQuote.request quote))
        :: rest.
Proof.
  unfold NWCWallet.pay_invoice, NWCWallet.pay_invoice_body,
    NWCWallet.pay_invoice_handler, try_except, bind, await, ret.
  destruct (NWCClient.pay_invoice _ _ _) as [res | e].
  - rewrite lookup_fees_eq.
    match goal with |- context [0 <? ?f] => destruct (0 <? f) end.
    + destruct (MempoolExchangeRateProvider.from_sats _ _ _ _) as [f | e].
      * eexists. cbn. rewrite <- !app_assoc. reflexivity.
      * eexists. destruct (exn_cls e); cbn; rewrite <- !app_assoc; reflexivity.
    + eexists. cbn. rewrite <- !app_assoc. reflexivity.
  - exists []. now destruct (exn_cls e).
Qed.

(** C2. The code breaks the claim.  A wallet in usd pays the invoice, the
    lookup reports 2500 millisatoshis of fees, and the rate provider
    cannot convert the 2 satoshis: [pay_invoice] returns [ok=false] with
    "Failed to pay invoice due to: no price" and no preimage, though the
    payment call is in the log and succeeded.  The failure next to it,
    of the lookup itself, is absorbed as the claim says: fee 0 and
    [ok=true] with the preimage. *)
Theorem pay_invoice_paid_reported_failed :
  NWCClient.pay_invoice (cooperating_client 2500)
    (Nip47PayInvoiceRequest.mk "lnbc1") []
  = Ok (Nip47PayInvoiceResponse.mk "preimage")
  /\
  NWCWallet.pay_invoice (test_imports 1000 1 (cooperating_client 2500) fx_down)
    (NWCWallet.mk usd (cooperating_client 2500)) (MeltQuote.mk "lnbc1" "hash")
    2000 []
  = (Ok (PaymentResponse.mk false None None None
           (Some "Failed to pay invoice due to: no price")),
     [ CallPayInvoice (Nip47PayInvoiceRequest.mk "lnbc1");
       CallLookupInvoice (Nip47LookupInvoiceRequest.mk "hash");
       CallFromSats 2 usd ])
  /\
  NWCWallet.pay_invoice (test_imports 1000 1 forgetful_client fx_down)
    (NWCWallet.mk usd forgetful_client) (MeltQuote.mk "lnbc1" "hash") 2000 []
  = (Ok (PaymentResponse.mk
           true None (Some (Amount.mk usd 0)) (Some "preimage") None),
     [ CallPayInvoice (Nip47PayInvoiceRequest.mk "lnbc1");
       CallLookupInvoice (Nip47LookupInvoiceRequest.mk "hash") ]).
Proof.
  repeat split.
Qed.

(** Hence no payment that succeeded is sure to be reported with
    [ok=true]. *)
Lemma pay_invoice_not_ok_when_rate_fails :
  ~ (forall (env : Imports.t) (self : NWCWallet.t) (quote : MeltQuote.t)
            (fee_limit_msat : Z) (t : Trace) (res : Nip47PayInvoiceResponse.t),
        NWCClient.pay_invoice (NWCWallet.client self)
          (Nip47PayInvoiceRequest.mk (MeltQuote.request quote)) t = Ok res ->
        exists r t',
          NWCWallet.pay_invoice env self quote fee_limit_msat t = (Ok r, t')
          /\ PaymentResponse.ok r = true
          /\ PaymentResponse.preimage r
             = Some (Nip47PayInvoiceResponse.preimage res)).
Proof.
  intros H.
  destruct (H (test_imports 1000 1 (cooperating_client 2500) fx_down)
              (NWCWallet.mk usd (cooperating_client 2500))
              (MeltQuote.mk "lnbc1" "hash") 2000 []
              (Nip47PayInvoiceResponse.mk "preimage") eq_refl)
    as (r & t' & Heq & Hok & _).
  vm_compute in Heq. injection Heq as Hr _. subst r. discriminate Hok.
Qed.

(** C5, as the code has it. [pay_invoice] does not read [fee_limit_msat]:
    its result and the calls it makes are the same for every value, and
    the payment call carries the quote's payment request and nothing
    else. *)
Theorem pay_invoice_ignores_fee_limit
  (env : Imports.t) (self : NWCWallet.t) (quote : MeltQuote.t)
  (fee_limit_msat fee_limit_msat' : Z) (t : Trace) :
  NWCWallet.pay_invoice env self quote fee_limit_msat t
  = NWCWallet.pay_invoice env self quote fee_limit_msat' t
  /\
  exists rest,
    snd (NWCWallet.pay_invoice env self quote fee_limit_msat t)
    = t ++ CallPayInvoice (Nip47PayInvoiceRequest.mk (MeltQuote.request quote))
        :: rest.
Proof.
  split; [reflexivity | apply pay_invoice_first_call].
Qed.

(** C5, as stated, fails: were the fee limit passed through, it could be
    read back from the payment call; the same quote paid with a limit of
    0 and with a limit of 2000 makes the same call. *)
Lemma fee_limit_not_passed_through :
  ~ (exists fee_limit_of : Nip47PayInvoiceRequest.t -> Z,
        forall (env : Imports.t) (self : NWCWallet.t) (quote : MeltQuote.t)
               (fee_limit_msat : Z) (t : Trace) (request : Nip47PayInvoiceRequest.t),
          In (CallPayInvoice request)
             (snd (NWCWallet.pay_invoice env self quote fee_limit_msat t)) ->
          fee_limit_of request = fee_limit_msat).
Proof.
  intros [fee_limit_of H].
  pose (env := test_imports 1000 1 (cooperating_client 0) fx_sat).
  pose (self := NWCWallet.mk sat (cooperating_client 0)).
  pose (quote := MeltQuote.mk "lnbc1" "hash").
  assert (H0 : fee_limit_of (Nip47PayInvoiceRequest.mk "lnbc1") = 0)
    by (apply (H env self quote 0 []); vm_compute; tauto).
  assert (H1 : fee_limit_of (Nip47PayInvoiceRequest.mk "lnbc1") = 2000)
    by (apply (H env self quote 2000 []); vm_compute; tauto).
  rewrite H0 in H1. discriminate H1.
Qed.

(** The rate provider is asked to convert a fee only when its floor in
    satoshis is positive; the payment and the lookup come first. *)
Lemma pay_invoice_converts_positive_fee_only
  (env : Imports.t) (self : NWCWallet.t) (quote : MeltQuote.t)
  (fee_limit_msat : Z) (t : Trace) :
  exists calls,
    snd (NWCWallet.pay_invoice env self quote fee_limit_msat t) = t ++ calls
    /\ forall amt unit,
         In (CallFromSats amt unit) calls ->
         0 < amt /\ unit = NWCWallet.unit self.
Proof.
  unfold NWCWallet.pay_invoice, NWCWallet.pay_invoice_body,
    NWCWallet.pay_invoice_handler, try_except, bind, await, ret.
  destruct (NWCClient.pay_invoice _ _ _) as [res | e].
  - rewrite lookup_fees_eq.
    match goal with |- context [0 <? ?f] => destruct (Z.ltb_spec 0 f) as [Hpos | Hle] end.
    + eexists. split.
      * destruct (MempoolExchangeRateProvider.from_sats _ _ _ _) as [f | e];
          [| destruct (exn_cls e)]; cbn; rewrite <- !app_assoc; reflexivity.
      * intros amt unit [H | [H | [H | []]]]; try discriminate H.
        injection H as <- <-. now split.
    + eexists. split.
      * cbn. rewrite <- !app_assoc. reflexivity.
      * intros amt unit [H | [H | []]]; discriminate H.
  - eexists. split.
    + now destruct (exn_cls e).
    + intros amt unit [H | []]. discriminate H.
Qed.

(** C9. After a successful payment whose lookup reports
    [0 <= fees_paid < 1000] millisatoshis, the floored fee is 0 satoshis:
    the fee returned is 0 in the adapter's unit and the rate provider is
    not called, the only calls being the payment and the lookup. *)
Theorem pay_invoice_sub_satoshi_fee
  (env : Imports.t) (self : NWCWallet.t) (quote : MeltQuote.t)
  (fee_limit_msat : Z) (t : Trace)
  (res : Nip47PayInvoiceResponse.t) (invoice : Nip47LookupInvoiceResponse.t) :
  NWCClient.pay_invoice (NWCWallet.client self)
    (Nip47PayInvoiceRequest.mk (MeltQuote.request quote)) t = Ok res ->
  NWCClient.lookup_invoice (NWCWallet.client self)
    (Nip47LookupInvoiceRequest.mk (MeltQuote.checking_id quote))
    (t ++ [CallPayInvoice (Nip47PayInvoiceRequest.mk (MeltQuote.request quote))])
  = Ok invoice ->
  0 <= Nip47LookupInvoiceResponse.fees_paid invoice < 1000 ->
  Nip47LookupInvoiceResponse.fees_paid invoice / 1000 = 0
  /\
  NWCWallet.pay_invoice env self quote fee_limit_msat t
  = (Ok (PaymentResponse.mk
           true None (Some (Amount.mk (NWCWallet.unit self) 0))
           (Some (Nip47PayInvoiceResponse.preimage res)) None),
     t ++ [ CallPayInvoice (Nip47PayInvoiceRequest.mk (MeltQuote.request quote));
            CallLookupInvoice
              (Nip47LookupInvoiceRequest.mk (MeltQuote.checking_id quote)) ])
  /\
  forall amt unit,
    ~ In (CallFromSats amt unit)
         [ CallPayInvoice (Nip47PayInvoiceRequest.mk (MeltQuote.request quote));
           CallLookupInvoice
             (Nip47LookupInvoiceRequest.mk (MeltQuote.checking_id quote)) ].
Proof.
  intros Hpay Hlookup Hrange.
  assert (Hzero : Nip47LookupInvoiceResponse.fees_paid invoice / 1000 = 0)
    by (apply Z.div_small; exact Hrange).
  split; [exact Hzero|]. split.
  - unfold NWCWallet.pay_invoice, NWCWallet.pay_invoice_body, try_except, bind,
      await, ret.
    rewrite Hpay, lookup_fees_eq, Hlookup, Hzero. cbn. now rewrite app_cons_app.
  - intros amt unit [H | [H | []]]; discriminate H.
Qed.

(** A payment that cost 999 millisatoshis in fees, with a rate provider
    that is down: the fee is 0 and the provider is not asked. *)
Lemma pay_invoice_sub_satoshi_fee_witness :
  NWCWallet.pay_invoice (test_imports 1000 1 (cooperating_client 999) fx_down)
    (NWCWallet.mk usd (cooperating_client 999)) (MeltQuote.mk "lnbc1" "hash")
    2000 []
  = (Ok (PaymentResponse.mk
           true None (Some (Amount.mk usd 0)) (Some "preimage") None),
     [ CallPayInvoice (Nip47PayInvoiceRequest.mk "lnbc1");
       CallLookupInvoice (Nip47LookupInvoiceRequest.mk "hash") ]).
Proof.
  apply (pay_invoice_sub_satoshi_fee
           (test_imports 1000 1 (cooperating_client 999) fx_down)
           (NWCWallet.mk usd (cooperating_client 999))
           (MeltQuote.mk "lnbc1" "hash") 2000 []
           (Nip47PayInvoiceResponse.mk "preimage")
           (Nip47LookupInvoiceResponse.mk (Some "preimage") 999)
           eq_refl eq_refl).
  simpl. lia.
Defined.

(** ** Construction *)

Lemma Unit_eqb_eq (a b : Unit) : Unit_eqb a b = true <-> a = b.
Proof.
  destruct a, b; simpl; split; intros H;
    try reflexivity; try discriminate H.
  - apply String.eqb_eq in H. now subst.
  - injection H as ->. apply String.eqb_refl.
Qed.

Lemma unit_supported_iff (unit : Unit) :
  existsb (Unit_eqb unit) NWCWallet.supported_units = true
  <-> In unit [sat; usd].
Proof.
  rewrite existsb_exists. split.
  - intros [u [Hin Heq]]. apply Unit_eqb_eq in Heq. now subst.
  - intros Hin. exists unit. split; [exact Hin | now apply Unit_eqb_eq].
Qed.

(** C8. Constructing the adapter with a unit outside {sat, usd} fails at
    once with the error of the unit check, before a protocol client is
    built; with [sat] or [usd] the check passes and, the client handle
    being built, the adapter is returned with that unit stored. *)
Theorem construction_checks_unit (env : Imports.t) (unit : Unit) :
  (~ In unit [sat; usd] ->
   exists e, NWCWallet.__init__ env unit = Raise e /\ exn_cls e = Unsupported)
  /\
  (In unit [sat; usd] ->
   forall client,
     Imports.NWCClient_new env (Imports.mint_nwc_url env) = Ok client ->
     exists self,
       NWCWallet.__init__ env unit = Ok self
       /\ NWCWallet.unit self = unit
       /\ NWCWallet.client self = client).
Proof.
  unfold NWCWallet.__init__, NWCWallet.assert_unit_supported.
  split; intros Hin.
  - destruct (existsb _ _) eqn:Hsup.
    + apply unit_supported_iff in Hsup. contradiction.
    + eexists. split; reflexivity.
  - intros client Hclient.
    apply unit_supported_iff in Hin. rewrite Hin. cbn.
    rewrite Hclient. eexists. repeat split.
Qed.

(** Millisatoshi is refused; usd is accepted and stored. *)
Lemma construction_checks_unit_witness :
  (exists e,
      NWCWallet.__init__ (test_imports 1000 1 (cooperating_client 0) fx_sat) msat
      = Raise e
      /\ exn_cls e = Unsupported)
  /\
  (exists self,
      NWCWallet.__init__ (test_imports 1000 1 (cooperating_client 0) fx_sat) usd
      = Ok self
      /\ NWCWallet.unit self = usd
      /\ NWCWallet.client self = cooperating_client 0).
Proof.
  split.
  - apply (construction_checks_unit
             (test_imports 1000 1 (cooperating_client 0) fx_sat) msat).
    simpl. intros [H | [H | []]]; discriminate H.
  - apply (construction_checks_unit
             (test_imports 1000 1 (cooperating_client 0) fx_sat) usd).
    + simpl. tauto.
    + reflexivity.
Defined.

(** ** get_payment_quote *)

(** The quote of a request without a multi-path amount, once the invoice
    is decoded and the reserve computed: two conversions, of the floors
    in satoshis of the amount and of the reserve. *)
Lemma get_payment_quote_plain
  (env : Imports.t) (self : NWCWallet.t) (melt_quote : PostMeltQuoteRequest.t)
  (t : Trace) (invoice_obj : Bolt11.t) (amount_msat fees_msat : Z) :
  PostMeltQuoteRequest.is_mpp melt_quote = false ->
  Imports.decode env (PostMeltQuoteRequest.request melt_quote) = Ok invoice_obj ->
  Bolt11.amount_msat invoice_obj = Some amount_msat ->
  amount_msat <> 0 ->
  Imports.fee_reserve env amount_msat = Ok fees_msat ->
  NWCWallet.get_payment_quote env self melt_quote t
  = match MempoolExchangeRateProvider.from_sats (Imports.fx env)
            (amount_msat / 1000) (NWCWallet.unit self) t with
    | Raise e => (Raise e, t ++ [CallFromSats (amount_msat / 1000) (NWCWallet.unit self)])
    | Ok amount_unit =>
        match MempoolExchangeRateProvider.from_sats (Imports.fx env)
                (fees_msat / 1000) (NWCWallet.unit self)
                (t ++ [CallFromSats (amount_msat / 1000) (NWCWallet.unit self)]) with
        | Raise e =>
            (Raise e,
             t ++ [ CallFromSats (amount_msat / 1000) (NWCWallet.unit self);
                    CallFromSats (fees_msat / 1000) (NWCWallet.unit self) ])
        | Ok fees_unit =>
            (obind (Imports.Amount_to env
                      (Amount.mk (NWCWallet.unit self) fees_unit)
                      (NWCWallet.unit self) (Some "up"))
               (fun fee =>
                  obind (Imports.Amount_to env
                           (Amount.mk (NWCWallet.unit self) amount_unit)
                           (NWCWallet.unit self) (Some "up"))
                    (fun amount =>
                       Ok (PaymentQuoteResponse.mk
                             (Bolt11.payment_hash invoice_obj) fee amount))),
             t ++ [ CallFromSats (amount_msat / 1000) (NWCWallet.unit self);
                    CallFromSats (fees_msat / 1000) (NWCWallet.unit self) ])
        end
    end.
Proof.
  intros Hmpp Hdecode Hamount Hnz Hreserve. run.
  rewrite Hmpp, Hdecode, Hamount. cbn.
  apply Z.eqb_neq in Hnz. rewrite Hnz. cbn. rewrite Hreserve.
  destruct (MempoolExchangeRateProvider.from_sats _ _ _ t) as [amount_unit | e];
    [| reflexivity].
  rewrite app_cons_app.
  destruct (MempoolExchangeRateProvider.from_sats _ _ _ _) as [fees_unit | e];
    [| reflexivity].
  destruct (Imports.Amount_to env _ _ _) as [fee | e]; [| reflexivity].
  cbn. now destruct (Imports.Amount_to env _ _ _).
Qed.

(** The quote once the amount to quote is known.  The amount is that of
    the invoice, or, for a multi-path request, the multi-path amount
    that [Amount.to] converted to millisatoshis; from there on nothing is
    guarded: the reserve, the two conversions and the two roundings. *)
Lemma get_payment_quote_from_reserve
  (env : Imports.t) (self : NWCWallet.t) (melt_quote : PostMeltQuoteRequest.t)
  (t : Trace) (invoice_obj : Bolt11.t) (invoice_msat amount_msat : Z) :
  Imports.decode env (PostMeltQuoteRequest.request melt_quote) = Ok invoice_obj ->
  Bolt11.amount_msat invoice_obj = Some invoice_msat ->
  invoice_msat <> 0 ->
  (PostMeltQuoteRequest.is_mpp melt_quote = false /\ amount_msat = invoice_msat
   \/ PostMeltQuoteRequest.is_mpp melt_quote = true
      /\ exists u amount,
           Imports.Unit_getitem env (PostMeltQuoteRequest.unit melt_quote) = Ok u
           /\ Imports.Amount_to env
                (Amount.mk u (PostMeltQuoteRequest.mpp_amount melt_quote)) msat None
              = Ok amount
           /\ amount_msat = Amount.amount amount) ->
  NWCWallet.get_payment_quote env self melt_quote t
  = match Imports.fee_reserve env amount_msat with
    | Raise e => (Raise e, t)
    | Ok fees_msat =>
        match MempoolExchangeRateProvider.from_sats (Imports.fx env)
                (amount_msat / 1000) (NWCWallet.unit self) t with
        | Raise e =>
            (Raise e,
             t ++ [CallFromSats (amount_msat / 1000) (NWCWallet.unit self)])
        | Ok amount_unit =>
            match MempoolExchangeRateProvider.from_sats (Imports.fx env)
                    (fees_msat / 1000) (NWCWallet.unit self)
                    (t ++ [CallFromSats (amount_msat / 1000) (NWCWallet.unit self)])
            with
            | Raise e =>
                (Raise e,
                 t ++ [ CallFromSats (amount_msat / 1000) (NWCWallet.unit self);
                        CallFromSats (fees_msat / 1000) (NWCWallet.unit self) ])
            | Ok fees_unit =>
                (obind (Imports.Amount_to env
                          (Amount.mk (NWCWallet.unit self) fees_unit)
                          (NWCWallet.unit self) (Some "up"))
                   (fun fee =>
                      obind (Imports.Amount_to env
                               (Amount.mk (NWCWallet.unit self) amount_unit)
                               (NWCWallet.unit self) (Some "up"))
                        (fun quoted =>
                           Ok (PaymentQuoteResponse.mk
                                 (Bolt11.payment_hash invoice_obj) fee quoted))),
                 t ++ [ CallFromSats (amount_msat / 1000) (NWCWallet.unit self);
                        CallFromSats (fees_msat / 1000) (NWCWallet.unit self) ])
            end
        end
    end.
Proof.
  intros Hdecode Hinvoice Hnz Hquoted.
  apply Z.eqb_neq in Hnz. run.
  destruct Hquoted as [[Hmpp ->] | (Hmpp & u & amount & Hunit & Hto & ->)];
    rewrite Hmpp; [| rewrite Hunit];
    rewrite Hdecode, Hinvoice; cbn; rewrite Hnz; cbn; [| rewrite Hto].
  all: destruct (Imports.fee_reserve env _) as [fees_msat | e]; [| reflexivity].
  all: destruct (MempoolExchangeRateProvider.from_sats _ _ _ t)
         as [amount_unit | e]; [| reflexivity].
  all: rewrite app_cons_app.
  all: destruct (MempoolExchangeRateProvider.from_sats _ _ _ _)
         as [fees_unit | e]; [| reflexivity].
  all: destruct (Imports.Amount_to env
                   (Amount.mk (NWCWallet.unit self) fees_unit) _ _);
    [| reflexivity].
  all: cbn.
  all: now destruct (Imports.Amount_to env
                       (Amount.mk (NWCWallet.unit self) amount_unit) _ _).
Qed.

(** C10. In [get_payment_quote] nothing catches a failure of the reserve
    computation or of either call to the rate provider's [from_sats]: for
    a decodable invoice that carries an amount, whether the amount quoted
    is the invoice's or a multi-path amount, the exception raised there
    is raised by the quote, which is thus not a matter of a malformed
    invoice or a missing amount; the other five operations return a
    value whatever the collaborators do. *)
Theorem get_payment_quote_propagates
  (env : Imports.t) (self : NWCWallet.t) (melt_quote : PostMeltQuoteRequest.t)
  (t : Trace) (invoice_obj : Bolt11.t) (invoice_msat amount_msat : Z) :
  Imports.decode env (PostMeltQuoteRequest.request melt_quote) = Ok invoice_obj ->
  Bolt11.amount_msat invoice_obj = Some invoice_msat ->
  invoice_msat <> 0 ->
  (PostMeltQuoteRequest.is_mpp melt_quote = false /\ amount_msat = invoice_msat
   \/ PostMeltQuoteRequest.is_mpp melt_quote = true
      /\ exists u amount,
           Imports.Unit_getitem env (PostMeltQuoteRequest.unit melt_quote) = Ok u
           /\ Imports.Amount_to env
                (Amount.mk u (PostMeltQuoteRequest.mpp_amount melt_quote)) msat None
              = Ok amount
           /\ amount_msat = Amount.amount amount) ->
  (forall e,
      Imports.fee_reserve env amount_msat = Raise e ->
      NWCWallet.get_payment_quote env self melt_quote t = (Raise e, t))
  /\
  (forall fees_msat e,
      Imports.fee_reserve env amount_msat = Ok fees_msat ->
      MempoolExchangeRateProvider.from_sats (Imports.fx env)
        (amount_msat / 1000) (NWCWallet.unit self) t = Raise e ->
      NWCWallet.get_payment_quote env self melt_quote t
      = (Raise e, t ++ [CallFromSats (amount_msat / 1000) (NWCWallet.unit self)]))
  /\
  (forall fees_msat amount_unit e,
      Imports.fee_reserve env amount_msat = Ok fees_msat ->
      MempoolExchangeRateProvider.from_sats (Imports.fx env)
        (amount_msat / 1000) (NWCWallet.unit self) t = Ok amount_unit ->
      MempoolExchangeRateProvider.from_sats (Imports.fx env)
        (fees_msat / 1000) (NWCWallet.unit self)
        (t ++ [CallFromSats (amount_msat / 1000) (NWCWallet.unit self)]) = Raise e ->
      NWCWallet.get_payment_quote env self melt_quote t
      = (Raise e,
         t ++ [ CallFromSats (amount_msat / 1000) (NWCWallet.unit self);
                CallFromSats (fees_msat / 1000) (NWCWallet.unit self) ]))
  /\
  (exists r t', NWCWallet.status env self t = (Ok r, t'))
  /\
  (forall amount memo description_hash unhashed_description,
      exists r t',
        NWCWallet.create_invoice env self amount memo description_hash
          unhashed_description t = (Ok r, t'))
  /\
  (forall quote fee_limit_msat,
      exists r t',
        NWCWallet.pay_invoice env self quote fee_limit_msat t = (Ok r, t'))
  /\
  (forall checking_id,
      exists r t', NWCWallet.get_invoice_status self checking_id t = (Ok r, t'))
  /\
  (forall checking_id,
      exists r t', NWCWallet.get_payment_status self checking_id t = (Ok r, t')).
Proof.
  intros Hdecode Hinvoice Hnz Hquoted.
  pose proof (get_payment_quote_from_reserve env self melt_quote t invoice_obj
                invoice_msat amount_msat Hdecode Hinvoice Hnz Hquoted) as Hquote.
  split; [| split; [| split; [| split; [| split; [| split; [| split]]]]]].
  - intros e Hreserve. now rewrite Hquote, Hreserve.
  - intros fees_msat e Hreserve Hfx. now rewrite Hquote, Hreserve, Hfx.
  - intros fees_msat amount_unit e Hreserve Hfx1 Hfx2.
    now rewrite Hquote, Hreserve, Hfx1, Hfx2.
  - destruct (status_returns env self t) as (r & t' & Heq & _). now exists r, t'.
  - intros amount memo description_hash unhashed_description.
    destruct (create_invoice_returns env self amount memo description_hash
                unhashed_description t) as (r & t' & Heq & _).
    now exists r, t'.
  - intros quote fee_limit_msat.
    destruct (pay_invoice_returns env self quote fee_limit_msat t)
      as (r & t' & Heq & _).
    now exists r, t'.
  - intros checking_id. rewrite get_invoice_status_eq. eexists. eexists. reflexivity.
  - intros checking_id. rewrite get_payment_status_eq. eexists. eexists. reflexivity.
Qed.

(** Two quotes in usd while the price source is down, of an invoice of
    1000 millisatoshis and of 5 satoshis of it as a multi-path amount:
    the provider's exception is what the caller gets. *)
Lemma get_payment_quote_propagates_witness :
  NWCWallet.get_payment_quote
    (test_imports 1000 1 (cooperating_client 0) fx_down)
    (NWCWallet.mk usd (cooperating_client 0))
    (PostMeltQuoteRequest.mk "usd" "lnbc1" false 0) []
  = (Raise (mk_exn OtherException "no price"), [CallFromSats 1 usd])
  /\
  NWCWallet.get_payment_quote
    (test_imports 1000 1 (cooperating_client 0) fx_down)
    (NWCWallet.mk usd (cooperating_client 0))
    (PostMeltQuoteRequest.mk "sat" "lnbc1" true 5) []
  = (Raise (mk_exn OtherException "no price"), [CallFromSats 5 usd]).
Proof.
  split.
  - destruct (get_payment_quote_propagates
                (test_imports 1000 1 (cooperating_client 0) fx_down)
                (NWCWallet.mk usd (cooperating_client 0))
                (PostMeltQuoteRequest.mk "usd" "lnbc1" false 0) []
                (Bolt11.mk (Some 1000) "hash") 1000 1000
                eq_refl eq_refl)
      as (_ & Hfx & _).
    + lia.
    + left. split; reflexivity.
    + exact (Hfx 1 (mk_exn OtherException "no price") eq_refl eq_refl).
  - destruct (get_payment_quote_propagates
                (test_imports 1000 1 (cooperating_client 0) fx_down)
                (NWCWallet.mk usd (cooperating_client 0))
                (PostMeltQuoteRequest.mk "sat" "lnbc1" true 5) []
                (Bolt11.mk (Some 1000) "hash") 1000 5000
                eq_refl eq_refl)
      as (_ & Hfx & _).
    + lia.
    + right. split; [reflexivity|].
      exists sat, (Amount.mk msat 5000). repeat split.
    + exact (Hfx 1 (mk_exn OtherException "no price") eq_refl eq_refl).
Defined.

(** With a rate provider that leaves satoshis as they are and an
    [Amount.to] that leaves an amount in its own unit as it is, the quote
    is the floor of the invoice amount and the floor of the reserve. *)
Lemma get_payment_quote_floors
  (env : Imports.t) (self : NWCWallet.t) (melt_quote : PostMeltQuoteRequest.t)
  (t : Trace) (invoice_obj : Bolt11.t) (amount_msat fees_msat : Z) :
  PostMeltQuoteRequest.is_mpp melt_quote = false ->
  Imports.decode env (PostMeltQuoteRequest.request melt_quote) = Ok invoice_obj ->
  Bolt11.amount_msat invoice_obj = Some amount_msat ->
  amount_msat <> 0 ->
  Imports.fee_reserve env amount_msat = Ok fees_msat ->
  (forall amt t', MempoolExchangeRateProvider.from_sats (Imports.fx env)
                    amt (NWCWallet.unit self) t' = Ok amt) ->
  (forall a round, Imports.Amount_to env a (Amount.unit a) round = Ok a) ->
  fst (NWCWallet.get_payment_quote env self melt_quote t)
  = Ok (PaymentQuoteResponse.mk
          (Bolt11.payment_hash invoice_obj)
          (Amount.mk (NWCWallet.unit self) (fees_msat / 1000))
          (Amount.mk (NWCWallet.unit self) (amount_msat / 1000))).
Proof.
  intros Hmpp Hdecode Hamount Hnz Hreserve Hfx Hto.
  rewrite (get_payment_quote_plain env self melt_quote t invoice_obj
             amount_msat fees_msat) by assumption.
  rewrite !Hfx. cbn.
  rewrite (Hto (Amount.mk (NWCWallet.unit self) (fees_msat / 1000))).
  cbn.
  now rewrite (Hto (Amount.mk (NWCWallet.unit self) (amount_msat / 1000))).
Qed.

(** C1. The quote does not round up.  A wallet kept in satoshis quotes an
    invoice of 1000 millisatoshis with a reserve of 1 millisatoshi at a
    fee of 0, and an invoice of 1999 millisatoshis at an amount of 1
    satoshi: the rate provider is handed the floors of the amount and of
    the reserve, and the conversion with round up that follows is from the
    adapter's unit to itself. *)
Theorem get_payment_quote_rounds_down :
  NWCWallet.get_payment_quote
    (test_imports 1000 1 (cooperating_client 0) fx_sat)
    (NWCWallet.mk sat (cooperating_client 0))
    (PostMeltQuoteRequest.mk "sat" "lnbc1" false 0) []
  = (Ok (PaymentQuoteResponse.mk "hash" (Amount.mk sat 0) (Amount.mk sat 1)),
     [CallFromSats 1 sat; CallFromSats 0 sat])
  /\
  NWCWallet.get_payment_quote
    (test_imports 1999 1 (cooperating_client 0) fx_sat)
    (NWCWallet.mk sat (cooperating_client 0))
    (PostMeltQuoteRequest.mk "sat" "lnbc1" false 0) []
  = (Ok (PaymentQuoteResponse.mk "hash" (Amount.mk sat 0) (Amount.mk sat 1)),
     [CallFromSats 1 sat; CallFromSats 0 sat])
  /\ 0 * 1000 < 1
  /\ 1 * 1000 < 1999.
Proof.
  repeat split; try reflexivity; lia.
Qed.

(** ** More on status *)

(** What the two [except] clauses of an operation write in the error
    message: the text of a protocol error as it is, any other exception
    after the operation's own prefix. *)
Lemma status_handler_eq (exc : exn) (t : Trace) :
  NWCWallet.status_handler exc t
  = (Ok (StatusResponse.mk
           (Some match exn_cls exc with
                 | Nip47Error => exn_str exc
                 | _ => ("Failed to connect to lightning wallet via NWC due to: "
                         ++ exn_str exc)%string
                 end)
           0),
     t).
Proof. unfold NWCWallet.status_handler, ret. now destruct (exn_cls exc). Qed.

(** X1. A [status] without error message is a full success: [get_info]
    answered with all five required methods, [get_balance] answered, the
    rate provider converted the floor of the balance in satoshis, and the
    balance reported is that conversion. *)
Theorem status_success_implies_capabilities
  (env : Imports.t) (self : NWCWallet.t) (t t' : Trace) (r : StatusResponse.t) :
  NWCWallet.status env self t = (Ok r, t') ->
  StatusResponse.error_message r = None ->
  exists info res,
    NWCClient.get_info (NWCWallet.client self) t = Ok info
    /\ incl required_nip47_methods (Nip47GetInfoResponse.methods info)
    /\ NWCClient.get_balance (NWCWallet.client self) (t ++ [CallGetInfo]) = Ok res
    /\ MempoolExchangeRateProvider.from_sats (Imports.fx env)
         (Nip47GetBalanceResponse.balance res / 1000) (NWCWallet.unit self)
         (t ++ [CallGetInfo; CallGetBalance])
       = Ok (StatusResponse.balance r)
    /\ t' = t ++ [ CallGetInfo; CallGetBalance;
                   CallFromSats (Nip47GetBalanceResponse.balance res / 1000)
                                (NWCWallet.unit self) ].
Proof.
  unfold NWCWallet.status, try_except.
  unfold NWCWallet.status_body, bind, await, ret.
  destruct (NWCClient.get_info _ t) as [info | e] eqn:Hinfo;
    [| rewrite status_handler_eq; intros [= <- _]; discriminate].
  destruct (forallb _ required_nip47_methods) eqn:Hall; cbn;
    [| intros [= <- _]; discriminate].
  apply supports_required_methods in Hall.
  destruct (NWCClient.get_balance _ _) as [res | e] eqn:Hbal;
    [| rewrite status_handler_eq; intros [= <- _]; discriminate].
  rewrite app_cons_app.
  destruct (MempoolExchangeRateProvider.from_sats _ _ _ _) as [b | e] eqn:Hfx;
    [| rewrite status_handler_eq; intros [= <- _]; discriminate].
  intros [= <- <-] _. exists info, res. cbn.
  repeat split; try assumption. now rewrite <- app_assoc.
Qed.

(** The balance of 5500 millisatoshis seen through [status] is that of a
    wallet that grants every method. *)
Lemma status_success_implies_capabilities_witness :
  exists info res,
    NWCClient.get_info (cooperating_client 0) [] = Ok info
    /\ incl required_nip47_methods (Nip47GetInfoResponse.methods info)
    /\ NWCClient.get_balance (cooperating_client 0) [CallGetInfo] = Ok res
    /\ MempoolExchangeRateProvider.from_sats fx_sat
         (Nip47GetBalanceResponse.balance res / 1000) sat
         [CallGetInfo; CallGetBalance] = Ok 5
    /\ [CallGetInfo; CallGetBalance; CallFromSats 5 sat]
       = [ CallGetInfo; CallGetBalance;
           CallFromSats (Nip47GetBalanceResponse.balance res / 1000) sat ].
Proof.
  apply (status_success_implies_capabilities
           (test_imports 1000 1 (cooperating_client 0) fx_sat)
           (NWCWallet.mk sat (cooperating_client 0)) []
           [CallGetInfo; CallGetBalance; CallFromSats 5 sat]
           (StatusResponse.mk None 5));
    reflexivity.
Defined.

(** X2. Whatever the collaborators do, a [status] that carries an error
    message reports balance 0, and [status] only reads: its calls are
    [get_info], then possibly [get_balance], then possibly one conversion
    into the adapter's unit, in that order and once each. *)
Theorem status_reads_only (env : Imports.t) (self : NWCWallet.t) (t : Trace) :
  exists r calls,
    NWCWallet.status env self t = (Ok r, t ++ calls)
    /\ (StatusResponse.error_message r = None \/ StatusResponse.balance r = 0)
    /\ (calls = [CallGetInfo]
        \/ calls = [CallGetInfo; CallGetBalance]
        \/ exists amt,
             calls = [ CallGetInfo; CallGetBalance;
                       CallFromSats amt (NWCWallet.unit self) ]).
Proof.
  unfold NWCWallet.status, try_except.
  unfold NWCWallet.status_body, bind, await, ret.
  destruct (NWCClient.get_info _ t) as [info | e].
  - destruct (forallb _ required_nip47_methods); cbn.
    + destruct (NWCClient.get_balance _ _) as [res | e].
      * destruct (MempoolExchangeRateProvider.from_sats _ _ _ _) as [b | e].
        -- eexists. eexists. rewrite <- !app_assoc. cbn.
           split; [reflexivity|]. split; [now left|]. right. right.
           eexists. reflexivity.
        -- rewrite status_handler_eq. eexists. eexists.
           rewrite <- !app_assoc. cbn.
           split; [reflexivity|]. split; [now right|]. right. right.
           eexists. reflexivity.
      * rewrite status_handler_eq. eexists. eexists.
        rewrite <- !app_assoc. cbn.
        split; [reflexivity|]. split; [now right|]. right. now left.
    + eexists. eexists. split; [reflexivity|]. split; [now right | now left].
  - rewrite status_handler_eq. eexists. eexists.
    split; [reflexivity|]. split; [now right | now left].
Qed.

(** X3. When [get_info] raises, [status] makes no other call and returns
    balance 0 with the text of the exception: as it is for a protocol
    error, after "Failed to connect to lightning wallet via NWC due to: "
    otherwise. *)
Theorem status_get_info_failure
  (env : Imports.t) (self : NWCWallet.t) (t : Trace) (e : exn) :
  NWCClient.get_info (NWCWallet.client self) t = Raise e ->
  NWCWallet.status env self t
  = (Ok (StatusResponse.mk
           (Some match exn_cls e with
                 | Nip47Error => exn_str e
                 | _ => ("Failed to connect to lightning wallet via NWC due to: "
                         ++ exn_str e)%string
                 end)
           0),
     t ++ [CallGetInfo]).
Proof.
  intros Hinfo. unfold NWCWallet.status, try_except.
  unfold NWCWallet.status_body, bind, await. rewrite Hinfo.
  apply status_handler_eq.
Qed.

(** A wallet that times out. *)
Lemma status_get_info_failure_witness :
  NWCWallet.status offline_imports offline_wallet []
  = (Ok (StatusResponse.mk
           (Some "Failed to connect to lightning wallet via NWC due to: timeout")
           0),
     [CallGetInfo]).
Proof.
  apply (status_get_info_failure offline_imports offline_wallet []
           (mk_exn OtherException "timeout")).
  reflexivity.
Defined.

(** X4. A wallet that answers both queries is still reported as failed
    when the rate provider cannot convert its balance: balance 0 and the
    text of the provider's exception, the balance read being dropped. *)
Theorem status_rate_failure
  (env : Imports.t) (self : NWCWallet.t) (t : Trace)
  (info : Nip47GetInfoResponse.t) (res : Nip47GetBalanceResponse.t) (e : exn) :
  NWCClient.get_info (NWCWallet.client self) t = Ok info ->
  incl required_nip47_methods (Nip47GetInfoResponse.methods info) ->
  NWCClient.get_balance (NWCWallet.client self) (t ++ [CallGetInfo]) = Ok res ->
  MempoolExchangeRateProvider.from_sats (Imports.fx env)
    (Nip47GetBalanceResponse.balance res / 1000) (NWCWallet.unit self)
    (t ++ [CallGetInfo; CallGetBalance]) = Raise e ->
  NWCWallet.status env self t
  = (Ok (StatusResponse.mk
           (Some match exn_cls e with
                 | Nip47Error => exn_str e
                 | _ => ("Failed to connect to lightning wallet via NWC due to: "
                         ++ exn_str e)%string
                 end)
           0),
     t ++ [ CallGetInfo; CallGetBalance;
            CallFromSats (Nip47GetBalanceResponse.balance res / 1000)
                         (NWCWallet.unit self) ]).
Proof.
  intros Hinfo Hall Hbal Hfx. apply supports_required_methods in Hall.
  unfold NWCWallet.status, try_except.
  unfold NWCWallet.status_body, bind, await, ret.
  rewrite Hinfo, Hall. cbn. rewrite Hbal, app_cons_app, Hfx.
  rewrite status_handler_eq. now rewrite <- app_assoc.
Qed.

(** A wallet in usd holding 5500 millisatoshis while the price source is
    down. *)
Lemma status_rate_failure_witness :
  NWCWallet.status (test_imports 1000 1 (cooperating_client 0) fx_down)
    (NWCWallet.mk usd (cooperating_client 0)) []
  = (Ok (StatusResponse.mk
           (Some "Failed to connect to lightning wallet via NWC due to: no price")
           0),
     [CallGetInfo; CallGetBalance; CallFromSats 5 usd]).
Proof.
  apply (status_rate_failure
           (test_imports 1000 1 (cooperating_client 0) fx_down)
           (NWCWallet.mk usd (cooperating_client 0)) []
           (Nip47GetInfoResponse.mk
              [ "pay_invoice"; "get_balance"; "get_info"; "make_invoice";
                "lookup_invoice"; "list_transactions" ])
           (Nip47GetBalanceResponse.mk 5500)
           (mk_exn OtherException "no price")
           eq_refl).
  - intros m Hm. simpl in Hm.
    repeat (destruct Hm as [Hm | Hm]; [subst m; simpl; tauto|]).
    contradiction.
  - reflexivity.
  - reflexivity.
Defined.

(** ** More on create_invoice *)

Lemma create_invoice_handler_eq (exc : exn) (t : Trace) :
  NWCWallet.create_invoice_handler exc t
  = (Ok (InvoiceResponse.mk false None None
           (Some match exn_cls exc with
                 | Nip47Error => exn_str exc
                 | _ => ("Failed to create invoice due to: " ++ exn_str exc)%string
                 end)),
     t).
Proof. unfold NWCWallet.create_invoice_handler, ret. now destruct (exn_cls exc). Qed.

(** X5. Whatever the collaborators do, the result of [create_invoice] is
    of one of two kinds: [ok=true] with a checking id, a payment request
    and no error message, after the conversion and one request to the
    wallet; or [ok=false] with an error message and neither checking id nor
    payment request.  The conversion to satoshis always comes first, and
    the amount asked of the wallet is always a whole number of satoshis
    in millisatoshis. *)
Theorem create_invoice_result_kinds
  (env : Imports.t) (self : NWCWallet.t) (amount : Amount.t)
  (memo description_hash unhashed_description : option string) (t : Trace) :
  exists r calls,
    NWCWallet.create_invoice env self amount memo description_hash
      unhashed_description t = (Ok r, t ++ calls)
    /\
    ((InvoiceResponse.ok r = true
      /\ InvoiceResponse.error_message r = None
      /\ exists amount_sat res,
           InvoiceResponse.checking_id r
           = Some (Nip47MakeInvoiceResponse.payment_hash res)
           /\ InvoiceResponse.payment_request r
              = Some (Nip47MakeInvoiceResponse.invoice res)
           /\ calls = [ CallToSats (Amount.amount amount) (NWCWallet.unit self);
                        CallCreateInvoice
                          (Nip47MakeInvoiceRequest.mk (amount_sat * 1000)) ])
     \/
     (InvoiceResponse.ok r = false
      /\ InvoiceResponse.error_message r <> None
      /\ InvoiceResponse.checking_id r = None
      /\ InvoiceResponse.payment_request r = None
      /\ (calls = [CallToSats (Amount.amount amount) (NWCWallet.unit self)]
          \/ exists amount_sat,
               calls = [ CallToSats (Amount.amount amount) (NWCWallet.unit self);
                         CallCreateInvoice
                           (Nip47MakeInvoiceRequest.mk (amount_sat * 1000)) ]))).
Proof.
  unfold NWCWallet.create_invoice, try_except.
  unfold NWCWallet.create_invoice_body, NWCWallet._amt_to_sat, bind, await, ret.
  destruct (MempoolExchangeRateProvider.to_sats _ _ _ t) as [amount_sat | e].
  - destruct (NWCClient.create_invoice _ _ _) as [res | e].
    + eexists. eexists. rewrite <- !app_assoc. cbn.
      split; [reflexivity|]. left. repeat split.
      exists amount_sat, res. now repeat split.
    + rewrite create_invoice_handler_eq. eexists. eexists.
      rewrite <- !app_assoc. cbn.
      split; [reflexivity|]. right. repeat split; try discriminate.
      right. now exists amount_sat.
  - rewrite create_invoice_handler_eq. eexists. eexists.
    split; [reflexivity|]. right. repeat split; try discriminate. now left.
Qed.

(** X6. When the rate provider cannot convert the amount, the wallet is
    not asked for an invoice: the conversion is the only call, and the
    result is [ok=false] with the text of the provider's exception. *)
Theorem create_invoice_rate_failure
  (env : Imports.t) (self : NWCWallet.t) (amount : Amount.t)
  (memo description_hash unhashed_description : option string) (t : Trace)
  (e : exn) :
  MempoolExchangeRateProvider.to_sats (Imports.fx env)
    (Amount.amount amount) (NWCWallet.unit self) t = Raise e ->
  NWCWallet.create_invoice env self amount memo description_hash
    unhashed_description t
  = (Ok (InvoiceResponse.mk false None None
           (Some match exn_cls e with
                 | Nip47Error => exn_str e
                 | _ => ("Failed to create invoice due to: " ++ exn_str e)%string
                 end)),
     t ++ [CallToSats (Amount.amount amount) (NWCWallet.unit self)]).
Proof.
  intros Hsats. unfold NWCWallet.create_invoice, try_except.
  unfold NWCWallet.create_invoice_body, NWCWallet._amt_to_sat, bind, await.
  rewrite Hsats. apply create_invoice_handler_eq.
Qed.

(** An invoice for 5 usd while the price source is down. *)
Lemma create_invoice_rate_failure_witness :
  NWCWallet.create_invoice (test_imports 1000 1 (cooperating_client 0) fx_down)
    (NWCWallet.mk usd (cooperating_client 0)) (Amount.mk usd 500)
    (Some "coffee") None None []
  = (Ok (InvoiceResponse.mk false None None
           (Some "Failed to create invoice due to: no price")),
     [CallToSats 500 usd]).
Proof.
  apply (create_invoice_rate_failure
           (test_imports 1000 1 (cooperating_client 0) fx_down)
           (NWCWallet.mk usd (cooperating_client 0)) (Amount.mk usd 500)
           (Some "coffee") None None [] (mk_exn OtherException "no price")).
  reflexivity.
Defined.

(** X7. When the wallet refuses to create the invoice, the result is
    [ok=false]; the error message is the wallet's own text for a protocol
    error, and the text after "Failed to create invoice due to: " for any
    other exception. *)
Theorem create_invoice_wallet_failure
  (env : Imports.t) (self : NWCWallet.t) (amount : Amount.t)
  (memo description_hash unhashed_description : option string) (t : Trace)
  (amount_sat : Z) (e : exn) :
  MempoolExchangeRateProvider.to_sats (Imports.fx env)
    (Amount.amount amount) (NWCWallet.unit self) t = Ok amount_sat ->
  NWCClient.create_invoice (NWCWallet.client self)
    (Nip47MakeInvoiceRequest.mk (amount_sat * 1000))
    (t ++ [CallToSats (Amount.amount amount) (NWCWallet.unit self)]) = Raise e ->
  NWCWallet.create_invoice env self amount memo description_hash
    unhashed_description t
  = (Ok (InvoiceResponse.mk false None None
           (Some match exn_cls e with
                 | Nip47Error => exn_str e
                 | _ => ("Failed to create invoice due to: " ++ exn_str e)%string
                 end)),
     t ++ [ CallToSats (Amount.amount amount) (NWCWallet.unit self);
            CallCreateInvoice (Nip47MakeInvoiceRequest.mk (amount_sat * 1000)) ]).
Proof.
  intros Hsats Hinvoice. unfold NWCWallet.create_invoice, try_except.
  unfold NWCWallet.create_invoice_body, NWCWallet._amt_to_sat, bind, await.
  rewrite Hsats, Hinvoice, create_invoice_handler_eq.
  now rewrite app_cons_app.
Qed.

(** A wallet that times out on an invoice for 21 satoshis. *)
Lemma create_invoice_wallet_failure_witness :
  NWCWallet.create_invoice offline_imports offline_wallet (Amount.mk sat 21)
    None None None []
  = (Ok (InvoiceResponse.mk false None None
           (Some "Failed to create invoice due to: timeout")),
     [ CallToSats 21 sat;
       CallCreateInvoice (Nip47MakeInvoiceRequest.mk 21000) ]).
Proof.
  apply (create_invoice_wallet_failure offline_imports offline_wallet
           (Amount.mk sat 21) None None None [] 21
           (mk_exn OtherException "timeout"));
    reflexivity.
Defined.

(** X8. [create_invoice] reads the magnitude of the amount and nothing
    else of its arguments: the unit of the amount passed is not compared
    with the adapter's, and the memo, the description hash and the
    unhashed description do not reach the wallet. *)
Theorem create_invoice_reads_magnitude_only
  (env : Imports.t) (self : NWCWallet.t) (amount amount' : Amount.t)
  (memo description_hash unhashed_description : option string)
  (memo' description_hash' unhashed_description' : option string) (t : Trace) :
  Amount.amount amount = Amount.amount amount' ->
  NWCWallet.create_invoice env self amount memo description_hash
    unhashed_description t
  = NWCWallet.create_invoice env self amount' memo' description_hash'
      unhashed_description' t.
Proof.
  intros Hmagnitude. unfold NWCWallet.create_invoice.
  unfold NWCWallet.create_invoice_body. now rewrite Hmagnitude.
Qed.

(** 1000 units labelled usd with a memo, and 1000 labelled sat without,
    are the same request to a wallet kept in satoshis. *)
Lemma create_invoice_reads_magnitude_only_witness :
  NWCWallet.create_invoice (test_imports 1000 1 (cooperating_client 0) fx_sat)
    (NWCWallet.mk sat (cooperating_client 0)) (Amount.mk usd 1000)
    (Some "coffee") None None []
  = NWCWallet.create_invoice (test_imports 1000 1 (cooperating_client 0) fx_sat)
      (NWCWallet.mk sat (cooperating_client 0)) (Amount.mk sat 1000)
      None None None [].
Proof.
  apply (create_invoice_reads_magnitude_only
           (test_imports 1000 1 (cooperating_client 0) fx_sat)
           (NWCWallet.mk sat (cooperating_client 0))
           (Amount.mk usd 1000) (Amount.mk sat 1000)).
  reflexivity.
Defined.

(** ** More on pay_invoice *)

Lemma pay_invoice_handler_eq (exc : exn) (t : Trace) :
  NWCWallet.pay_invoice_handler exc t
  = (Ok (PaymentResponse.mk false None None None
           (Some match exn_cls exc with
                 | Nip47Error => exn_str exc
                 | _ => ("Failed to pay invoice due to: " ++ exn_str exc)%string
                 end)),
     t).
Proof. unfold NWCWallet.pay_invoice_handler, ret. now destruct (exn_cls exc). Qed.

(** X9. Whatever the collaborators do, [pay_invoice] asks the wallet to
    pay exactly once, as its first call, never sets [checking_id], and
    ends in one of four ways.  The payment raised: [ok=false] with the
    text of the exception, neither fee nor preimage, and no other call.
    The payment returned and the floor of the looked-up fees in
    satoshis (0 when the lookup raised) is not positive: [ok=true] with
    that floor as fee and the preimage of the payment, after the payment
    and the lookup.  The floor is positive and the rate provider
    converts it: [ok=true] with the converted fee and the preimage of the
    payment.  The floor is positive and the rate provider raises:
    [ok=false] with the text of that exception, neither fee nor
    preimage, although the payment returned.  So [ok=false] is returned
    exactly when the payment raised or the conversion of a positive fee
    did. *)
Theorem pay_invoice_result_kinds
  (env : Imports.t) (self : NWCWallet.t) (quote : MeltQuote.t)
  (fee_limit_msat : Z) (t : Trace) :
  exists r calls,
    NWCWallet.pay_invoice env self quote fee_limit_msat t = (Ok r, t ++ calls)
    /\ PaymentResponse.checking_id r = None
    /\
    ((exists e,
         NWCClient.pay_invoice (NWCWallet.client self)
           (Nip47PayInvoiceRequest.mk (MeltQuote.request quote)) t = Raise e
         /\ r = PaymentResponse.mk false None None None
                  (Some match exn_cls e with
                        | Nip47Error => exn_str e
                        | _ => ("Failed to pay invoice due to: " ++ exn_str e)%string
                        end)
         /\ calls
            = [CallPayInvoice (Nip47PayInvoiceRequest.mk (MeltQuote.request quote))])
     \/
     (exists res fees,
         NWCClient.pay_invoice (NWCWallet.client self)
           (Nip47PayInvoiceRequest.mk (MeltQuote.request quote)) t = Ok res
         /\ fees
            = match NWCClient.lookup_invoice (NWCWallet.client self)
                      (Nip47LookupInvoiceRequest.mk (MeltQuote.checking_id quote))
                      (t ++ [CallPayInvoice
                               (Nip47PayInvoiceRequest.mk (MeltQuote.request quote))])
              with
              | Ok invoice => Nip47LookupInvoiceResponse.fees_paid invoice / 1000
              | Raise _ => 0
              end
         /\
         ((fees <= 0
           /\ r = PaymentResponse.mk
                    true None (Some (Amount.mk (NWCWallet.unit self) fees))
                    (Some (Nip47PayInvoiceResponse.preimage res)) None
           /\ calls
              = [ CallPayInvoice
                    (Nip47PayInvoiceRequest.mk (MeltQuote.request quote));
                  CallLookupInvoice
                    (Nip47LookupInvoiceRequest.mk (MeltQuote.checking_id quote)) ])
          \/
          (0 < fees
           /\ calls
              = [ CallPayInvoice
                    (Nip47PayInvoiceRequest.mk (MeltQuote.request quote));
                  CallLookupInvoice
                    (Nip47LookupInvoiceRequest.mk (MeltQuote.checking_id quote));
                  CallFromSats fees (NWCWallet.unit self) ]
           /\
           ((exists fee,
                MempoolExchangeRateProvider.from_sats (Imports.fx env)
                  fees (NWCWallet.unit self)
                  (t ++ [ CallPayInvoice
                            (Nip47PayInvoiceRequest.mk (MeltQuote.request quote));
                          CallLookupInvoice
                            (Nip47LookupInvoiceRequest.mk
                               (MeltQuote.checking_id quote)) ])
                = Ok fee
                /\ r = PaymentResponse.mk
                         true None (Some (Amount.mk (NWCWallet.unit self) fee))
                         (Some (Nip47PayInvoiceResponse.preimage res)) None)
            \/
            (exists e,
                MempoolExchangeRateProvider.from_sats (Imports.fx env)
                  fees (NWCWallet.unit self)
                  (t ++ [ CallPayInvoice
                            (Nip47PayInvoiceRequest.mk (MeltQuote.request quote));
                          CallLookupInvoice
                            (Nip47LookupInvoiceRequest.mk
                               (MeltQuote.checking_id quote)) ])
                = Raise e
                /\ r = PaymentResponse.mk false None None None
                         (Some match exn_cls e with
                               | Nip47Error => exn_str e
                               | _ => ("Failed to pay invoice due to: "
                                       ++ exn_str e)%string
                               end))))))).
Proof.
  unfold NWCWallet.pay_invoice, try_except.
  unfold NWCWallet.pay_invoice_body, bind, await, ret.
  destruct (NWCClient.pay_invoice _ _ t) as [res | e].
  - rewrite lookup_fees_eq, app_cons_app.
    match goal with
    | |- context [0 <? ?f] => destruct (Z.ltb_spec 0 f) as [Hpos | Hle]
    end.
    + destruct (MempoolExchangeRateProvider.from_sats _ _ _ _) as [fee | e]
        eqn:Hfx.
      * eexists. eexists. rewrite <- ?app_assoc. cbn.
        split; [reflexivity|]. split; [reflexivity|]. right.
        eexists. eexists. split; [reflexivity|]. split; [reflexivity|].
        right. split; [exact Hpos|]. split; [reflexivity|].
        left. exists fee. split; [exact Hfx | reflexivity].
      * rewrite pay_invoice_handler_eq. eexists. eexists.
        rewrite <- ?app_assoc. cbn.
        split; [reflexivity|]. split; [reflexivity|]. right.
        eexists. eexists. split; [reflexivity|]. split; [reflexivity|].
        right. split; [exact Hpos|]. split; [reflexivity|].
        right. exists e. split; [exact Hfx | reflexivity].
    + eexists. eexists. rewrite <- ?app_assoc. cbn.
      split; [reflexivity|]. split; [reflexivity|]. right.
      eexists. eexists. split; [reflexivity|]. split; [reflexivity|].
      left. split; [exact Hle|]. split; reflexivity.
  - rewrite pay_invoice_handler_eq. eexists. eexists.
    split; [reflexivity|]. split; [reflexivity|]. left.
    exists e. repeat split.
Qed.

(** X10. When the payment call raises, [pay_invoice] neither looks the
    invoice up nor asks for a rate: the payment is its only call, and the
    result is [ok=false] without fee or preimage; the error message is
    the wallet's own text for a protocol error, and the text after
    "Failed to pay invoice due to: " for any other exception. *)
Theorem pay_invoice_payment_failure
  (env : Imports.t) (self : NWCWallet.t) (quote : MeltQuote.t)
  (fee_limit_msat : Z) (t : Trace) (e : exn) :
  NWCClient.pay_invoice (NWCWallet.client self)
    (Nip47PayInvoiceRequest.mk (MeltQuote.request quote)) t = Raise e ->
  NWCWallet.pay_invoice env self quote fee_limit_msat t
  = (Ok (PaymentResponse.mk false None None None
           (Some match exn_cls e with
                 | Nip47Error => exn_str e
                 | _ => ("Failed to pay invoice due to: " ++ exn_str e)%string
                 end)),
     t ++ [CallPayInvoice (Nip47PayInvoiceRequest.mk (MeltQuote.request quote))]).
Proof.
  intros Hpay. unfold NWCWallet.pay_invoice, try_except.
  unfold NWCWallet.pay_invoice_body, bind, await.
  rewrite Hpay. apply pay_invoice_handler_eq.
Qed.

(** A connection that may not pay: the wallet's refusal is the message. *)
Lemma pay_invoice_payment_failure_witness :
  NWCWallet.pay_invoice (test_imports 1000 1 receive_only_client fx_sat)
    (NWCWallet.mk sat receive_only_client) (MeltQuote.mk "lnbc1" "hash") 2000 []
  = (Ok (PaymentResponse.mk false None None None (Some "RESTRICTED")),
     [CallPayInvoice (Nip47PayInvoiceRequest.mk "lnbc1")]).
Proof.
  apply (pay_invoice_payment_failure
           (test_imports 1000 1 receive_only_client fx_sat)
           (NWCWallet.mk sat receive_only_client) (MeltQuote.mk "lnbc1" "hash")
           2000 [] (mk_exn Nip47Error "RESTRICTED")).
  reflexivity.
Defined.

(** X11. After a successful payment whose lookup reports at least 1000
    millisatoshis of fees, the rate provider is asked to convert the
    floor of the fees in satoshis, what is left below a satoshi being
    dropped, and the fee returned is what the provider answers, in the
    adapter's unit. *)
Theorem pay_invoice_converted_fee
  (env : Imports.t) (self : NWCWallet.t) (quote : MeltQuote.t)
  (fee_limit_msat : Z) (t : Trace)
  (res : Nip47PayInvoiceResponse.t) (invoice : Nip47LookupInvoiceResponse.t)
  (fee : Z) :
  NWCClient.pay_invoice (NWCWallet.client self)
    (Nip47PayInvoiceRequest.mk (MeltQuote.request quote)) t = Ok res ->
  NWCClient.lookup_invoice (NWCWallet.client self)
    (Nip47LookupInvoiceRequest.mk (MeltQuote.checking_id quote))
    (t ++ [CallPayInvoice (Nip47PayInvoiceRequest.mk (MeltQuote.request quote))])
  = Ok invoice ->
  1000 <= Nip47LookupInvoiceResponse.fees_paid invoice ->
  MempoolExchangeRateProvider.from_sats (Imports.fx env)
    (Nip47LookupInvoiceResponse.fees_paid invoice / 1000) (NWCWallet.unit self)
    (t ++ [ CallPayInvoice (Nip47PayInvoiceRequest.mk (MeltQuote.request quote));
            CallLookupInvoice
              (Nip47LookupInvoiceRequest.mk (MeltQuote.checking_id quote)) ])
  = Ok fee ->
  NWCWallet.pay_invoice env self quote fee_limit_msat t
  = (Ok (PaymentResponse.mk
           true None (Some (Amount.mk (NWCWallet.unit self) fee))
           (Some (Nip47PayInvoiceResponse.preimage res)) None),
     t ++ [ CallPayInvoice (Nip47PayInvoiceRequest.mk (MeltQuote.request quote));
            CallLookupInvoice
              (Nip47LookupInvoiceRequest.mk (MeltQuote.checking_id quote));
            CallFromSats (Nip47LookupInvoiceResponse.fees_paid invoice / 1000)
                         (NWCWallet.unit self) ]).
Proof.
  intros Hpay Hlookup Hfees Hfx.
  assert (Hpos : (0 <? Nip47LookupInvoiceResponse.fees_paid invoice / 1000) = true).
  { apply Z.ltb_lt. apply Z.div_str_pos. lia. }
  unfold NWCWallet.pay_invoice, try_except.
  unfold NWCWallet.pay_invoice_body, bind, await, ret.
  rewrite Hpay, lookup_fees_eq, Hlookup, Hpos, app_cons_app, Hfx.
  now rewrite <- app_assoc.
Qed.

(** A payment that cost 2999 millisatoshis: 2 satoshis are converted. *)
Lemma pay_invoice_converted_fee_witness :
  NWCWallet.pay_invoice (test_imports 1000 1 (cooperating_client 2999) fx_sat)
    (NWCWallet.mk sat (cooperating_client 2999)) (MeltQuote.mk "lnbc1" "hash")
    2000 []
  = (Ok (PaymentResponse.mk
           true None (Some (Amount.mk sat 2)) (Some "preimage") None),
     [ CallPayInvoice (Nip47PayInvoiceRequest.mk "lnbc1");
       CallLookupInvoice (Nip47LookupInvoiceRequest.mk "hash");
       CallFromSats 2 sat ]).
Proof.
  apply (pay_invoice_converted_fee
           (test_imports 1000 1 (cooperating_client 2999) fx_sat)
           (NWCWallet.mk sat (cooperating_client 2999))
           (MeltQuote.mk "lnbc1" "hash") 2000 []
           (Nip47PayInvoiceResponse.mk "preimage")
           (Nip47LookupInvoiceResponse.mk (Some "preimage") 2999) 2
           eq_refl eq_refl).
  - simpl. lia.
  - reflexivity.
Defined.

(** X12. A lookup that reports negative fees is not checked: the floor
    of the fees in satoshis, a negative number, is returned as the fee in
    the adapter's unit without conversion, and [ok] is true. *)
Theorem pay_invoice_negative_fee
  (env : Imports.t) (self : NWCWallet.t) (quote : MeltQuote.t)
  (fee_limit_msat : Z) (t : Trace)
  (res : Nip47PayInvoiceResponse.t) (invoice : Nip47LookupInvoiceResponse.t) :
  NWCClient.pay_invoice (NWCWallet.client self)
    (Nip47PayInvoiceRequest.mk (MeltQuote.request quote)) t = Ok res ->
  NWCClient.lookup_invoice (NWCWallet.client self)
    (Nip47LookupInvoiceRequest.mk (MeltQuote.checking_id quote))
    (t ++ [CallPayInvoice (Nip47PayInvoiceRequest.mk (MeltQuote.request quote))])
  = Ok invoice ->
  Nip47LookupInvoiceResponse.fees_paid invoice < 0 ->
  Nip47LookupInvoiceResponse.fees_paid invoice / 1000 < 0
  /\
  NWCWallet.pay_invoice env self quote fee_limit_msat t
  = (Ok (PaymentResponse.mk
           true None
           (Some (Amount.mk (NWCWallet.unit self)
                    (Nip47LookupInvoiceResponse.fees_paid invoice / 1000)))
           (Some (Nip47PayInvoiceResponse.preimage res)) None),
     t ++ [ CallPayInvoice (Nip47PayInvoiceRequest.mk (MeltQuote.request quote));
            CallLookupInvoice
              (Nip47LookupInvoiceRequest.mk (MeltQuote.checking_id quote)) ]).
Proof.
  intros Hpay Hlookup Hneg.
  assert (Hfloor : Nip47LookupInvoiceResponse.fees_paid invoice / 1000 < 0)
    by (apply Z.div_lt_upper_bound; lia).
  split; [exact Hfloor|].
  assert (Hguard : (0 <? Nip47LookupInvoiceResponse.fees_paid invoice / 1000) = false)
    by (apply Z.ltb_ge; lia).
  unfold NWCWallet.pay_invoice, try_except.
  unfold NWCWallet.pay_invoice_body, bind, await, ret.
  rewrite Hpay, lookup_fees_eq, Hlookup, Hguard. now rewrite app_cons_app.
Qed.

(** A lookup that reports -1 millisatoshi: the fee is -1 usd cent. *)
Lemma pay_invoice_negative_fee_witness :
  NWCWallet.pay_invoice (test_imports 1000 1 (cooperating_client (-1)) fx_down)
    (NWCWallet.mk usd (cooperating_client (-1))) (MeltQuote.mk "lnbc1" "hash")
    2000 []
  = (Ok (PaymentResponse.mk
           true None (Some (Amount.mk usd (-1))) (Some "preimage") None),
     [ CallPayInvoice (Nip47PayInvoiceRequest.mk "lnbc1");
       CallLookupInvoice (Nip47LookupInvoiceRequest.mk "hash") ]).
Proof.
  apply (pay_invoice_negative_fee
           (test_imports 1000 1 (cooperating_client (-1)) fx_down)
           (NWCWallet.mk usd (cooperating_client (-1)))
           (MeltQuote.mk "lnbc1" "hash") 2000 []
           (Nip47PayInvoiceResponse.mk "preimage")
           (Nip47LookupInvoiceResponse.mk (Some "preimage") (-1))
           eq_refl eq_refl).
  simpl. lia.
Defined.

(** ** More on get_payment_quote *)

(** X13. An invoice that decodes without an amount, or with an amount of
    0, is refused with the assertion error "invoice has no amount."
    before the reserve is computed or any rate is asked for; this holds
    also when the request names a multi-path amount to quote instead of
    the invoice's. *)
Theorem get_payment_quote_requires_amount
  (env : Imports.t) (self : NWCWallet.t) (melt_quote : PostMeltQuoteRequest.t)
  (t : Trace) (invoice_obj : Bolt11.t) :
  (PostMeltQuoteRequest.is_mpp melt_quote = false
   \/ exists u,
        Imports.Unit_getitem env (PostMeltQuoteRequest.unit melt_quote) = Ok u) ->
  Imports.decode env (PostMeltQuoteRequest.request melt_quote) = Ok invoice_obj ->
  (Bolt11.amount_msat invoice_obj = None
   \/ Bolt11.amount_msat invoice_obj = Some 0) ->
  NWCWallet.get_payment_quote env self melt_quote t
  = (Raise (mk_exn AssertionError "invoice has no amount."), t).
Proof.
  intros Hmpp Hdecode Hamount. run.
  assert (Htruthy : truthy (Bolt11.amount_msat invoice_obj) = false)
    by (destruct Hamount as [-> | ->]; reflexivity).
  destruct Hmpp as [-> | [u Hu]].
  - now rewrite Hdecode, Htruthy.
  - destruct (PostMeltQuoteRequest.is_mpp melt_quote).
    + now rewrite Hu, Hdecode, Htruthy.
    + now rewrite Hdecode, Htruthy.
Qed.

(** A zero-amount invoice with a multi-path amount of 5 satoshis. *)
Lemma get_payment_quote_requires_amount_witness :
  NWCWallet.get_payment_quote (test_imports 0 1 (cooperating_client 0) fx_sat)
    (NWCWallet.mk sat (cooperating_client 0))
    (PostMeltQuoteRequest.mk "sat" "lnbc1" true 5) []
  = (Raise (mk_exn AssertionError "invoice has no amount."), []).
Proof.
  apply (get_payment_quote_requires_amount
           (test_imports 0 1 (cooperating_client 0) fx_sat)
           (NWCWallet.mk sat (cooperating_client 0))
           (PostMeltQuoteRequest.mk "sat" "lnbc1" true 5) []
           (Bolt11.mk (Some 0) "hash")).
  - right. exists sat. reflexivity.
  - reflexivity.
  - right. reflexivity.
Defined.

(** X14. A payment request that the decoder rejects makes the quote raise
    the decoder's own exception, with no call made. *)
Theorem get_payment_quote_decode_failure
  (env : Imports.t) (self : NWCWallet.t) (melt_quote : PostMeltQuoteRequest.t)
  (t : Trace) (e : exn) :
  (PostMeltQuoteRequest.is_mpp melt_quote = false
   \/ exists u,
        Imports.Unit_getitem env (PostMeltQuoteRequest.unit melt_quote) = Ok u) ->
  Imports.decode env (PostMeltQuoteRequest.request melt_quote) = Raise e ->
  NWCWallet.get_payment_quote env self melt_quote t = (Raise e, t).
Proof.
  intros Hmpp Hdecode. run.
  destruct Hmpp as [-> | [u Hu]].
  - now rewrite Hdecode.
  - destruct (PostMeltQuoteRequest.is_mpp melt_quote).
    + now rewrite Hu, Hdecode.
    + now rewrite Hdecode.
Qed.

(** A request that is no invoice. *)
Lemma get_payment_quote_decode_failure_witness :
  NWCWallet.get_payment_quote undecodable_imports
    (NWCWallet.mk sat (cooperating_client 0))
    (PostMeltQuoteRequest.mk "sat" "hello" false 0) []
  = (Raise (mk_exn OtherException "bad bech32"), []).
Proof.
  apply (get_payment_quote_decode_failure undecodable_imports
           (NWCWallet.mk sat (cooperating_client 0))
           (PostMeltQuoteRequest.mk "sat" "hello" false 0) []
           (mk_exn OtherException "bad bech32")).
  - left. reflexivity.
  - reflexivity.
Defined.

(** X15. In a multi-path request the unit is looked up by name before the
    payment request is decoded: a name that is no member of [Unit] makes
    the quote raise the lookup's exception, whatever the invoice. *)
Theorem get_payment_quote_unknown_unit
  (env : Imports.t) (self : NWCWallet.t) (melt_quote : PostMeltQuoteRequest.t)
  (t : Trace) (e : exn) :
  PostMeltQuoteRequest.is_mpp melt_quote = true ->
  Imports.Unit_getitem env (PostMeltQuoteRequest.unit melt_quote) = Raise e ->
  NWCWallet.get_payment_quote env self melt_quote t = (Raise e, t).
Proof.
  intros Hmpp Hunit. run. now rewrite Hmpp, Hunit.
Qed.

(** A multi-path request in a unit called "sats". *)
Lemma get_payment_quote_unknown_unit_witness :
  NWCWallet.get_payment_quote (test_imports 1000 1 (cooperating_client 0) fx_sat)
    (NWCWallet.mk sat (cooperating_client 0))
    (PostMeltQuoteRequest.mk "sats" "lnbc1" true 5) []
  = (Raise (mk_exn KeyError "'sats'"), []).
Proof.
  apply (get_payment_quote_unknown_unit
           (test_imports 1000 1 (cooperating_client 0) fx_sat)
           (NWCWallet.mk sat (cooperating_client 0))
           (PostMeltQuoteRequest.mk "sats" "lnbc1" true 5) []
           (mk_exn KeyError "'sats'"));
    reflexivity.
Defined.

(** X16. When the request names a multi-path amount, the quote is made
    for that amount converted to millisatoshis by [Amount.to], and the
    amount of the invoice, which must still be present, is not used: the
    reserve is computed on the multi-path amount and the two conversions
    are of its floor in satoshis and of the floor of that reserve. *)
Theorem get_payment_quote_mpp
  (env : Imports.t) (self : NWCWallet.t) (melt_quote : PostMeltQuoteRequest.t)
  (t : Trace) (u : Unit) (invoice_obj : Bolt11.t) (invoice_msat : Z)
  (amount : Amount.t) (fees_msat : Z) :
  PostMeltQuoteRequest.is_mpp melt_quote = true ->
  Imports.Unit_getitem env (PostMeltQuoteRequest.unit melt_quote) = Ok u ->
  Imports.decode env (PostMeltQuoteRequest.request melt_quote) = Ok invoice_obj ->
  Bolt11.amount_msat invoice_obj = Some invoice_msat ->
  invoice_msat <> 0 ->
  Imports.Amount_to env
    (Amount.mk u (PostMeltQuoteRequest.mpp_amount melt_quote)) msat None
  = Ok amount ->
  Imports.fee_reserve env (Amount.amount amount) = Ok fees_msat ->
  NWCWallet.get_payment_quote env self melt_quote t
  = match MempoolExchangeRateProvider.from_sats (Imports.fx env)
            (Amount.amount amount / 1000) (NWCWallet.unit self) t with
    | Raise e =>
        (Raise e,
         t ++ [CallFromSats (Amount.amount amount / 1000) (NWCWallet.unit self)])
    | Ok amount_unit =>
        match MempoolExchangeRateProvider.from_sats (Imports.fx env)
                (fees_msat / 1000) (NWCWallet.unit self)
                (t ++ [CallFromSats (Amount.amount amount / 1000)
                                    (NWCWallet.unit self)]) with
        | Raise e =>
            (Raise e,
             t ++ [ CallFromSats (Amount.amount amount / 1000) (NWCWallet.unit self);
                    CallFromSats (fees_msat / 1000) (NWCWallet.unit self) ])
        | Ok fees_unit =>
            (obind (Imports.Amount_to env
                      (Amount.mk (NWCWallet.unit self) fees_unit)
                      (NWCWallet.unit self) (Some "up"))
               (fun fee =>
                  obind (Imports.Amount_to env
                           (Amount.mk (NWCWallet.unit self) amount_unit)
                           (NWCWallet.unit self) (Some "up"))
                    (fun quoted =>
                       Ok (PaymentQuoteResponse.mk
                             (Bolt11.payment_hash invoice_obj) fee quoted))),
             t ++ [ CallFromSats (Amount.amount amount / 1000) (NWCWallet.unit self);
                    CallFromSats (fees_msat / 1000) (NWCWallet.unit self) ])
        end
    end.
Proof.
  intros Hmpp Hunit Hdecode Hinvoice Hnz Hto Hreserve. run.
  rewrite Hmpp, Hunit, Hdecode, Hinvoice. cbn.
  apply Z.eqb_neq in Hnz. rewrite Hnz. cbn. rewrite Hto, Hreserve.
  destruct (MempoolExchangeRateProvider.from_sats _ _ _ t) as [amount_unit | e];
    [| reflexivity].
  rewrite app_cons_app.
  destruct (MempoolExchangeRateProvider.from_sats _ _ _ _) as [fees_unit | e];
    [| reflexivity].
  destruct (Imports.Amount_to env _ _ (Some _)) as [fee | e]; [| reflexivity].
  cbn. now destruct (Imports.Amount_to env _ _ (Some _)).
Qed.

(** Five satoshis of an invoice of 1000000 millisatoshis: the quote is
    for 5 satoshis. *)
Lemma get_payment_quote_mpp_witness :
  NWCWallet.get_payment_quote
    (test_imports 1000000 1 (cooperating_client 0) fx_sat)
    (NWCWallet.mk sat (cooperating_client 0))
    (PostMeltQuoteRequest.mk "sat" "lnbc1" true 5) []
  = (Ok (PaymentQuoteResponse.mk "hash" (Amount.mk sat 0) (Amount.mk sat 5)),
     [CallFromSats 5 sat; CallFromSats 0 sat]).
Proof.
  apply (get_payment_quote_mpp
           (test_imports 1000000 1 (cooperating_client 0) fx_sat)
           (NWCWallet.mk sat (cooperating_client 0))
           (PostMeltQuoteRequest.mk "sat" "lnbc1" true 5) []
           sat (Bolt11.mk (Some 1000000) "hash") 1000000
           (Amount.mk msat 5000) 1
           eq_refl eq_refl eq_refl eq_refl).
  - lia.
  - reflexivity.
  - reflexivity.
Defined.

(** X17. Quoting never contacts the wallet: whatever the request and the
    collaborators, the only calls [get_payment_quote] makes are
    conversions into the adapter's unit, two at most. *)
Theorem get_payment_quote_asks_rates_only
  (env : Imports.t) (self : NWCWallet.t) (melt_quote : PostMeltQuoteRequest.t)
  (t : Trace) :
  exists calls,
    snd (NWCWallet.get_payment_quote env self melt_quote t) = t ++ calls
    /\ (calls = []
        \/ (exists amt, calls = [CallFromSats amt (NWCWallet.unit self)])
        \/ (exists amt fees,
               calls = [ CallFromSats amt (NWCWallet.unit self);
                         CallFromSats fees (NWCWallet.unit self) ])).
Proof.
  run. cbv beta iota.
  destruct (PostMeltQuoteRequest.is_mpp melt_quote); cbv beta iota.
  1: destruct (Imports.Unit_getitem env _); cbv beta iota; [| calls_made].
  all: destruct (Imports.decode env _); cbv beta iota; [| calls_made].
  all: destruct (truthy _); cbv beta iota; [| calls_made].
  1: destruct (Imports.Amount_to env _ msat None); cbv beta iota; [| calls_made].
  all: destruct (Imports.fee_reserve env _); cbv beta iota; [| calls_made].
  all: destruct (MempoolExchangeRateProvider.from_sats _ _ _ t);
    cbv beta iota; [| calls_made].
  all: destruct (MempoolExchangeRateProvider.from_sats _ _ _ _);
    cbv beta iota; [| calls_made].
  all: destruct (Imports.Amount_to env _ _ (Some _)); cbv beta iota; [| calls_made].
  all: destruct (Imports.Amount_to env _ _ (Some _)); calls_made.
Qed.

Lemma truthy_true (x : option Z) :
  truthy x = true -> exists v, x = Some v /\ v <> 0.
Proof.
  destruct x as [v |]; simpl; [| discriminate].
  intros H. exists v. split; [reflexivity|].
  apply negb_true_iff in H. now apply Z.eqb_neq.
Qed.

(** X18. A quote that is returned was made for an invoice that decoded
    with an amount other than 0; its [checking_id] is the payment hash of
    that invoice, two conversions were asked of the rate provider, and
    its fee and amount are what [Amount.to] gives, with round up, for two
    amounts that are already in the adapter's unit. *)
Theorem get_payment_quote_success
  (env : Imports.t) (self : NWCWallet.t) (melt_quote : PostMeltQuoteRequest.t)
  (t t' : Trace) (r : PaymentQuoteResponse.t) :
  NWCWallet.get_payment_quote env self melt_quote t = (Ok r, t') ->
  exists invoice_obj invoice_msat amount_unit fees_unit amt fees,
    Imports.decode env (PostMeltQuoteRequest.request melt_quote) = Ok invoice_obj
    /\ Bolt11.amount_msat invoice_obj = Some invoice_msat
    /\ invoice_msat <> 0
    /\ PaymentQuoteResponse.checking_id r = Bolt11.payment_hash invoice_obj
    /\ t' = t ++ [ CallFromSats amt (NWCWallet.unit self);
                   CallFromSats fees (NWCWallet.unit self) ]
    /\ Imports.Amount_to env (Amount.mk (NWCWallet.unit self) fees_unit)
         (NWCWallet.unit self) (Some "up")
       = Ok (PaymentQuoteResponse.fee r)
    /\ Imports.Amount_to env (Amount.mk (NWCWallet.unit self) amount_unit)
         (NWCWallet.unit self) (Some "up")
       = Ok (PaymentQuoteResponse.amount r).
Proof.
  run. cbv beta iota.
  destruct (PostMeltQuoteRequest.is_mpp melt_quote); cbv beta iota.
  1: destruct (Imports.Unit_getitem env _); cbv beta iota; [| discriminate].
  all: destruct (Imports.decode env _) as [invoice_obj |];
    cbv beta iota; [| discriminate].
  all: destruct (truthy _) eqn:Htruthy; cbv beta iota; [| discriminate].
  1: destruct (Imports.Amount_to env _ msat None); cbv beta iota; [| discriminate].
  all: destruct (Imports.fee_reserve env _); cbv beta iota; [| discriminate].
  all: destruct (MempoolExchangeRateProvider.from_sats _ _ _ t) as [amount_unit |];
    cbv beta iota; [| discriminate].
  all: destruct (MempoolExchangeRateProvider.from_sats _ _ _ _) as [fees_unit |];
    cbv beta iota; [| discriminate].
  all: destruct (Imports.Amount_to env
                   (Amount.mk (NWCWallet.unit self) fees_unit) _ _) eqn:Hfee;
    cbv beta iota; [| discriminate].
  all: destruct (Imports.Amount_to env
                   (Amount.mk (NWCWallet.unit self) amount_unit) _ _) eqn:Hamount;
    cbv beta iota; [| discriminate].
  all: intros [= <- <-];
    destruct (truthy_true _ Htruthy) as (invoice_msat & Hsome & Hnz);
    exists invoice_obj, invoice_msat, amount_unit, fees_unit;
    eexists; eexists; rewrite app_cons_app;
    repeat split; try eassumption; reflexivity.
Qed.

(** The quote of a 1000000 millisatoshi invoice by a wallet in satoshis
    carries the payment hash of the invoice. *)
Lemma get_payment_quote_success_witness :
  exists invoice_obj invoice_msat amount_unit fees_unit amt fees,
    Imports.decode (test_imports 1000000 2000 (cooperating_client 0) fx_sat)
      "lnbc1" = Ok invoice_obj
    /\ Bolt11.amount_msat invoice_obj = Some invoice_msat
    /\ invoice_msat <> 0
    /\ "hash" = Bolt11.payment_hash invoice_obj
    /\ [CallFromSats 1000 sat; CallFromSats 2 sat]
       = [] ++ [CallFromSats amt sat; CallFromSats fees sat]
    /\ Amount_to_model (Amount.mk sat fees_unit) sat (Some "up")
       = Ok (Amount.mk sat 2)
    /\ Amount_to_model (Amount.mk sat amount_unit) sat (Some "up")
       = Ok (Amount.mk sat 1000).
Proof.
  apply (get_payment_quote_success
           (test_imports 1000000 2000 (cooperating_client 0) fx_sat)
           (NWCWallet.mk sat (cooperating_client 0))
           (PostMeltQuoteRequest.mk "sat" "lnbc1" false 0) []
           [CallFromSats 1000 sat; CallFromSats 2 sat]
           (PaymentQuoteResponse.mk "hash" (Amount.mk sat 2) (Amount.mk sat 1000))).
  reflexivity.
Defined.

(** ** Messages and composition *)

(** X19. The error message of a capability mismatch lists the methods the
    wallet does support, as an f-string prints them, after "NWC does not
    support all required methods. Supports: "; it does not name the
    method that is missing. *)
Theorem status_capability_message
  (env : Imports.t) (self : NWCWallet.t) (t : Trace)
  (info : Nip47GetInfoResponse.t) (method : string) :
  NWCClient.get_info (NWCWallet.client self) t = Ok info ->
  In method required_nip47_methods ->
  ~ In method (Nip47GetInfoResponse.methods info) ->
  NWCWallet.status env self t
  = (Ok (StatusResponse.mk
           (Some ("NWC does not support all required methods. Supports: "
                  ++ Imports.format_methods env
                       (Nip47GetInfoResponse.methods info))%string)
           0),
     t ++ [CallGetInfo]).
Proof.
  intros Hinfo Hrequired Hmissing.
  unfold NWCWallet.status, try_except.
  unfold NWCWallet.status_body, bind, await, ret. rewrite Hinfo.
  destruct (forallb _ required_nip47_methods) eqn:Hall; [| reflexivity].
  apply supports_required_methods in Hall.
  elim Hmissing. now apply Hall.
Qed.

(** A connection without [pay_invoice]: the message lists the four
    methods granted. *)
Lemma status_capability_message_witness :
  NWCWallet.status (test_imports 1000 1 receive_only_client fx_sat)
    (NWCWallet.mk sat receive_only_client) []
  = (Ok (StatusResponse.mk
           (Some ("NWC does not support all required methods. Supports: "
                  ++ "['get_info', 'get_balance', 'make_invoice', 'lookup_invoice']")%string)
           0),
     [CallGetInfo]).
Proof.
  apply (status_capability_message
           (test_imports 1000 1 receive_only_client fx_sat)
           (NWCWallet.mk sat receive_only_client) []
           (Nip47GetInfoResponse.mk
              [ "get_info"; "get_balance"; "make_invoice"; "lookup_invoice" ])
           "pay_invoice").
  - reflexivity.
  - simpl. tauto.
  - simpl. intros H.
    repeat (destruct H as [H | H]; [discriminate H|]).
    exact H.
Defined.

(** X20. The checking id of a created invoice is the key of its status:
    when [create_invoice] returns a checking id, that id is the payment
    hash the wallet answered with, and [get_invoice_status] on it makes
    one lookup, by that payment hash. *)
Theorem create_invoice_then_status
  (env : Imports.t) (self : NWCWallet.t) (amount : Amount.t)
  (memo description_hash unhashed_description : option string)
  (t t1 : Trace) (r : InvoiceResponse.t) (checking_id : string) :
  NWCWallet.create_invoice env self amount memo description_hash
    unhashed_description t = (Ok r, t1) ->
  InvoiceResponse.checking_id r = Some checking_id ->
  (exists amount_sat res,
      NWCClient.create_invoice (NWCWallet.client self)
        (Nip47MakeInvoiceRequest.mk (amount_sat * 1000))
        (t ++ [CallToSats (Amount.amount amount) (NWCWallet.unit self)]) = Ok res
      /\ Nip47MakeInvoiceResponse.payment_hash res = checking_id
      /\ InvoiceResponse.payment_request r
         = Some (Nip47MakeInvoiceResponse.invoice res)
      /\ InvoiceResponse.ok r = true)
  /\
  snd (NWCWallet.get_invoice_status self checking_id t1)
  = t1 ++ [CallLookupInvoice (Nip47LookupInvoiceRequest.mk checking_id)].
Proof.
  intros Hcreate Hid. split; [| now rewrite get_invoice_status_eq].
  revert Hcreate. unfold NWCWallet.create_invoice, try_except.
  unfold NWCWallet.create_invoice_body, NWCWallet._amt_to_sat, bind, await, ret.
  destruct (MempoolExchangeRateProvider.to_sats _ _ _ t) as [amount_sat | e].
  - destruct (NWCClient.create_invoice _ _ _) as [res | e] eqn:Hres.
    + intros [= <- _]. cbn in Hid. injection Hid as <-.
      now exists amount_sat, res.
    + rewrite create_invoice_handler_eq. intros [= <- _]. discriminate Hid.
  - rewrite create_invoice_handler_eq. intros [= <- _]. discriminate Hid.
Qed.

(** The invoice for 1000 satoshis is then looked up by "hash". *)
Lemma create_invoice_then_status_witness :
  snd (NWCWallet.get_invoice_status (NWCWallet.mk sat (cooperating_client 0))
         "hash"
         [ CallToSats 1000 sat;
           CallCreateInvoice (Nip47MakeInvoiceRequest.mk 1000000) ])
  = [ CallToSats 1000 sat;
      CallCreateInvoice (Nip47MakeInvoiceRequest.mk 1000000);
      CallLookupInvoice (Nip47LookupInvoiceRequest.mk "hash") ].
Proof.
  apply (create_invoice_then_status
           (test_imports 1000 1 (cooperating_client 0) fx_sat)
           (NWCWallet.mk sat (cooperating_client 0)) (Amount.mk sat 1000)
           None None None []
           [ CallToSats 1000 sat;
             CallCreateInvoice (Nip47MakeInvoiceRequest.mk 1000000) ]
           (InvoiceResponse.mk true (Some "hash") (Some "lnbc1") None)
           "hash");
    reflexivity.
Defined.
